(** * riskmeasures: bootstrap standard error of the OLS slope

    A shallow embedding of [riskmeasures/utils.py], [riskmeasures/simulation.py]
    and [riskmeasures/methods.py], and the properties of the specification
    that concern them.

    Numbers.  A NumPy [float64] is modelled by the type [float] below: a finite
    value is a real number and arithmetic on finite values is exact (no
    rounding, no overflow, no signed zero); the three special values
    [+inf], [-inf] and [nan] follow the IEEE 754 rules.  Python's [int] is [Z].

    Libraries.  What NumPy and joblib do is not part of the repository; the
    random generator is an interface ([NumpyRandom]) with the documented
    range and shape guarantees as laws, [numpy.linalg.inv] raises
    [LinAlgError] on a singular matrix and returns the inverse otherwise, and
    [joblib.Parallel] returns the results in the order of its tasks. *)

From Stdlib Require Import String.
From Stdlib Require Import Reals Lra Lia ZArith Bool List Permutation.
Import ListNotations.

Local Open Scope R_scope.

(** ** Floating-point values *)

Inductive float : Type :=
| Fin (r : R)
| PInf
| NInf
| NaN.

Definition isfinite (x : float) : bool :=
  match x with Fin _ => true | _ => false end.

Definition Rnegb (r : R) : bool := if Rlt_dec r 0 then true else false.
Definition Rzerob (r : R) : bool := if Req_EM_T r 0 then true else false.
Definition Rleb (a b : R) : bool := if Rle_dec a b then true else false.

Definition inf (negative : bool) : float := if negative then NInf else PInf.

Definition fneg (x : float) : float :=
  match x with
  | Fin a => Fin (- a)
  | PInf => NInf
  | NInf => PInf
  | NaN => NaN
  end.

Definition fadd (x y : float) : float :=
  match x, y with
  | NaN, _ => NaN
  | _, NaN => NaN
  | Fin a, Fin b => Fin (a + b)
  | Fin _, PInf => PInf
  | Fin _, NInf => NInf
  | PInf, NInf => NaN
  | NInf, PInf => NaN
  | PInf, _ => PInf
  | NInf, _ => NInf
  end.

Definition fsub (x y : float) : float := fadd x (fneg y).

Definition fmul (x y : float) : float :=
  match x, y with
  | NaN, _ => NaN
  | _, NaN => NaN
  | Fin a, Fin b => Fin (a * b)
  | Fin a, PInf => if Rzerob a then NaN else inf (Rnegb a)
  | Fin a, NInf => if Rzerob a then NaN else inf (negb (Rnegb a))
  | PInf, Fin b => if Rzerob b then NaN else inf (Rnegb b)
  | NInf, Fin b => if Rzerob b then NaN else inf (negb (Rnegb b))
  | PInf, PInf => PInf
  | NInf, NInf => PInf
  | PInf, NInf => NInf
  | NInf, PInf => NInf
  end.

Definition fdiv (x y : float) : float :=
  match x, y with
  | NaN, _ => NaN
  | _, NaN => NaN
  | Fin a, Fin b =>
      if Rzerob b then (if Rzerob a then NaN else inf (Rnegb a))
      else Fin (a / b)
  | Fin _, _ => Fin 0
  | PInf, Fin b => inf (Rnegb b)
  | NInf, Fin b => inf (negb (Rnegb b))
  | _, _ => NaN
  end.

Definition fsqrt (x : float) : float :=
  match x with
  | Fin a => if Rnegb a then NaN else Fin (sqrt a)
  | PInf => PInf
  | _ => NaN
  end.

(** [x <= y] on floats; every comparison with [nan] is false. *)
Definition fleb (x y : float) : bool :=
  match x, y with
  | NaN, _ => false
  | _, NaN => false
  | Fin a, Fin b => Rleb a b
  | NInf, _ => true
  | _, PInf => true
  | _, _ => false
  end.

(** [x == y] on floats. *)
Definition feqb (x y : float) : bool :=
  match x, y with
  | Fin a, Fin b => if Req_EM_T a b then true else false
  | PInf, PInf => true
  | NInf, NInf => true
  | _, _ => false
  end.

Definition float_of_int (z : Z) : float := Fin (IZR z).
Definition float_of_nat (n : nat) : float := Fin (INR n).

(** ** Python values, exceptions, results *)

(** The dynamically typed values the validators have to tell apart. *)
Inductive pyval : Type :=
| PyNone
| PyBool (b : bool)
| PyInt (z : Z)
| PyFloat (f : float)
| PyStr (s : string).

(** The content of an exception message: which constraint was violated. *)
Inductive msg : Type :=
| must_be_int (name : string) (value : pyval)
| must_be_ge (name : string) (min_value value : Z)
| must_be_le (name : string) (max_value value : Z)
| must_be_real (name : string) (value : pyval)
| must_be_finite (name : string) (value_f : float)
| must_be_positive (name : string) (value_f : float)
| data_not_2d (ndim : nat)
| data_not_2_columns (shape : list nat)
| data_too_few_rows (min_rows got : nat)
| data_not_numeric
| data_not_finite
| values_not_1d (ndim : nat)
| values_too_few (len : nat)
| parallel_not_bool (value : pyval)
| seed_negative (value : Z)
| other_message.

Inductive exn : Type :=
| TypeError (m : msg)
| ValueError (m : msg)
| IndexError
| LinAlgError.

Inductive result (A : Type) : Type :=
| Ok (a : A)
| Raise (e : exn).

Arguments Ok {A} a.
Arguments Raise {A} e.

Definition bind {A B : Type} (r : result A) (k : A -> result B) : result B :=
  match r with
  | Ok a => k a
  | Raise e => Raise e
  end.

Notation "x <- r ;; k" := (bind r (fun x => k))
  (at level 61, r at next level, right associativity).
Notation "r ;;; k" := (bind r (fun _ => k))
  (at level 61, right associativity).

(** [[f(x) for x in xs]]: the first exception raised ends the loop. *)
Fixpoint mapM {A B : Type} (f : A -> result B) (xs : list A) : result (list B) :=
  match xs with
  | [] => Ok []
  | x :: xs' => y <- f x ;; ys <- mapM f xs' ;; Ok (y :: ys)
  end.

(** ** utils.py: the validation layer *)

Definition validate_int (name : string) (value : pyval)
    (min_value max_value : option Z) : result Z :=
  match value with
  | PyInt v =>
      match min_value with
      | Some lo => if (v <? lo)%Z then Raise (ValueError (must_be_ge name lo v)) else Ok tt
      | None => Ok tt
      end ;;;
      match max_value with
      | Some hi => if (v >? hi)%Z then Raise (ValueError (must_be_le name hi v)) else Ok tt
      | None => Ok tt
      end ;;;
      Ok v
  | _ => Raise (TypeError (must_be_int name value))
  end.

Definition validate_real (name : string) (value : pyval) (finite : bool)
    : result float :=
  match value with
  | PyInt _ | PyFloat _ =>
      let value_f := match value with
                     | PyInt z => float_of_int z
                     | PyFloat f => f
                     | _ => NaN
                     end in
      if finite && negb (isfinite value_f)
      then Raise (ValueError (must_be_finite name value_f))
      else Ok value_f
  | _ => Raise (TypeError (must_be_real name value))
  end.

Definition validate_positive (name : string) (value : pyval) : result float :=
  value_f <- validate_real name value true ;;
  if fleb value_f (Fin 0)
  then Raise (ValueError (must_be_positive name value_f))
  else Ok value_f.

(** ** NumPy arrays

    Only the arrays the repository handles are represented: numeric arrays of
    dimension 0 to 3, by nested lists with the lengths of the inner axes
    alongside, and arrays of a non-numeric dtype, by their shape alone. *)

Inductive ndarray : Type :=
| Nd0 (x : float)
| Nd1 (v : list float)
| Nd2 (ncols : nat) (rows : list (list float))
| Nd3 (nrows ncols : nat) (blocks : list (list (list float)))
| NdObject (shape : list nat).

Definition shape (a : ndarray) : list nat :=
  match a with
  | Nd0 _ => []
  | Nd1 v => [length v]
  | Nd2 c rows => [length rows; c]
  | Nd3 r c blocks => [length blocks; r; c]
  | NdObject s => s
  end.

Definition ndim (a : ndarray) : nat := length (shape a).

Definition is_numeric (a : ndarray) : bool :=
  match a with NdObject _ => false | _ => true end.

(** [np.isfinite(arr).all()] *)
Definition all_finite (a : ndarray) : bool :=
  match a with
  | Nd0 x => isfinite x
  | Nd1 v => forallb isfinite v
  | Nd2 _ rows => forallb (forallb isfinite) rows
  | Nd3 _ _ blocks => forallb (forallb (forallb isfinite)) blocks
  | NdObject _ => false
  end.

(** A represented array is rectangular, as every NumPy array is. *)
Definition well_shaped (a : ndarray) : Prop :=
  match a with
  | Nd2 c rows => Forall (fun r => length r = c) rows
  | Nd3 r c blocks =>
      Forall (fun b => length b = r /\ Forall (fun row => length row = c) b) blocks
  | _ => True
  end.

Definition validate_xy_data (data : ndarray) (min_rows : nat) : result ndarray :=
  let arr := data in
  if negb (ndim arr =? 2)%nat then Raise (ValueError (data_not_2d (ndim arr)))
  else if negb (nth 1 (shape arr) 0 =? 2)%nat
  then Raise (ValueError (data_not_2_columns (shape arr)))
  else if (nth 0 (shape arr) 0 <? min_rows)%nat
  then Raise (ValueError (data_too_few_rows min_rows (nth 0 (shape arr) 0%nat)))
  else if negb (is_numeric arr) then Raise (TypeError data_not_numeric)
  else if negb (all_finite arr) then Raise (ValueError data_not_finite)
  else Ok arr.

(** The rows of a two-dimensional array. *)
Definition rows_of (a : ndarray) : list (list float) :=
  match a with Nd2 _ rows => rows | _ => [] end.

(** [m[:, j]] *)
Definition column (j : nat) (m : list (list float)) : list float :=
  map (fun r => nth j r NaN) m.

(** [np.ones(n)] *)
Definition ones (n : nat) : list float := repeat (Fin 1) n.

(** [np.column_stack((a, b))] for two vectors of one length. *)
Definition column_stack (a b : list float) : list (list float) :=
  map (fun p => [fst p; snd p]) (combine a b).

(** [np.sum(v)] *)
Definition fsum (v : list float) : float := fold_left fadd v (Fin 0).

Definition dot (a b : list float) : float :=
  fsum (map (fun p => fmul (fst p) (snd p)) (combine a b)).

Definition width (m : list (list float)) : nat := length (hd [] m).

(** [m.T] *)
Definition transpose (m : list (list float)) : list (list float) :=
  map (fun j => column j m) (seq 0 (width m)).

(** [a @ b] for two matrices, and for a matrix and a vector. *)
Definition matmul (a b : list (list float)) : list (list float) :=
  map (fun ra => map (fun j => dot ra (column j b)) (seq 0 (width b))) a.

Definition matvec (a : list (list float)) (v : list float) : list float :=
  map (fun ra => dot ra v) a.

(** [np.linalg.inv] on the 2 x 2 matrices the estimator builds: the inverse,
    and [LinAlgError] when the matrix is singular or is not square. *)
Definition linalg_inv (m : list (list float)) : result (list (list float)) :=
  match m with
  | [[a; b]; [c; d]] =>
      let det := fsub (fmul a d) (fmul b c) in
      if feqb det (Fin 0) then Raise LinAlgError
      else Ok [[fdiv d det; fdiv (fneg b) det];
               [fdiv (fneg c) det; fdiv a det]]
  | _ => Raise LinAlgError
  end.

(** [data[i]] for one integer index: negative indices count from the end. *)
Definition take_row (rows : list (list float)) (i : Z) : result (list float) :=
  let n := Z.of_nat (length rows) in
  if ((i <? - n) || (n <=? i))%Z then Raise IndexError
  else Ok (nth (Z.to_nat (if (i <? 0)%Z then i + n else i)) rows []).

(** [for sample in samples]: the sub-arrays along the first axis. *)
Definition iter_first_axis (a : ndarray) : list ndarray :=
  match a with
  | Nd1 v => map Nd0 v
  | Nd2 _ rows => map Nd1 rows
  | Nd3 _ c blocks => map (Nd2 c) blocks
  | _ => []
  end.

(** ** numpy.random

    [np.random.default_rng(seed)] and the three draws the repository makes.
    A generator is a value; each draw returns the advanced generator next to
    what it drew.  The operating system's entropy, which seeds a generator
    made without a seed, is the explicit argument [os] of every operation
    that may ask for it. *)

Class NumpyRandom : Type := {
  Generator : Type;
  (** the generator a non-negative integer seed determines *)
  seeded : Z -> Generator;
  (** [np.random.default_rng(seed)] *)
  default_rng : pyval -> Z -> result Generator;
  (** [rng.integers(low, high)] *)
  integers : Generator -> Z -> Z -> Z * Generator;
  (** [rng.integers(low, high, size=(r, c))] *)
  integers_2d : Generator -> Z -> Z -> nat -> nat -> list (list Z) * Generator;
  (** [rng.normal(loc, scale, n)] *)
  normal : Generator -> float -> float -> nat -> list float * Generator;

  default_rng_none : forall os, default_rng PyNone os = Ok (seeded os);
  default_rng_int : forall z os,
    (0 <= z)%Z -> default_rng (PyInt z) os = Ok (seeded z);
  default_rng_negative : forall z os,
    (z < 0)%Z -> default_rng (PyInt z) os = Raise (ValueError (seed_negative z));
  integers_range : forall g low high,
    (low < high)%Z -> (low <= fst (integers g low high) < high)%Z;
  integers_2d_shape : forall g low high r c,
    length (fst (integers_2d g low high r c)) = r /\
    Forall (fun row => length row = c) (fst (integers_2d g low high r c));
  integers_2d_range : forall g low high r c,
    (low < high)%Z ->
    Forall (Forall (fun i => (low <= i < high)%Z)) (fst (integers_2d g low high r c));
  normal_length : forall g loc scale n,
    length (fst (normal g loc scale n)) = n;
  normal_finite : forall g loc scale n,
    isfinite loc = true -> isfinite scale = true ->
    forallb isfinite (fst (normal g loc scale n)) = true
}.

(** ** joblib

    [Parallel(n_jobs=n_jobs)(delayed(f)(x) for x in xs)].  The workers finish
    the tasks in some order [sched], a list of task positions; each result is
    kept under the position of its task, and the call returns the results in
    task order.  An exception of a task is raised in the caller.  The number
    of workers restricts which orders can occur, not what is returned. *)

Fixpoint result_at {B : Type} (i : nat) (done : list (nat * B)) : option B :=
  match done with
  | [] => None
  | (j, y) :: done' => if (i =? j)%nat then Some y else result_at i done'
  end.

Definition Parallel {A B : Type} (n_jobs : Z) (sched : list nat)
    (f : A -> result B) (xs : list A) : result (list B) :=
  done <- mapM (fun i => match nth_error xs i with
                         | Some x => y <- f x ;; Ok (i, y)
                         | None => Raise IndexError
                         end) sched ;;
  mapM (fun i => match result_at i done with
                 | Some y => Ok y
                 | None => Raise IndexError
                 end) (seq 0 (length xs)).

Section Core.

Context {rng_impl : NumpyRandom}.

(** *** utils.py, continued *)

Definition validate_rng_seed (seed : pyval) (os : Z) : result (Z * Generator) :=
  seed <- match seed with
          | PyNone =>
              fresh <- default_rng PyNone os ;;
              Ok (PyInt (fst (integers fresh 0 (2 ^ 31 - 1))))
          | _ => Ok seed
          end ;;
  seed <- validate_int "seed" seed (Some 0%Z) None ;;
  rng <- default_rng (PyInt seed) os ;;
  Ok (seed, rng).

(** *** simulation.py *)

Definition simulate_data (N : pyval) (beta_0 beta_1 : float)
    (x_sigma epsilon_sigma : pyval) (seed : pyval) (os : Z) : result ndarray :=
  N <- validate_int "N" N (Some 2%Z) None ;;
  x_sigma <- validate_positive "x_sigma" x_sigma ;;
  epsilon_sigma <- validate_positive "epsilon_sigma" epsilon_sigma ;;
  rng <- default_rng seed os ;;
  let (xs, rng) := normal rng (Fin 0) x_sigma (Z.to_nat N) in
  let (epsilons, rng) := normal rng (Fin 0) epsilon_sigma (Z.to_nat N) in
  let ys := map (fun p => fadd (fadd beta_0 (fmul beta_1 (fst p))) (snd p))
                (combine xs epsilons) in
  let data := Nd2 2 (column_stack xs ys) in
  Ok data.

(** *** methods.py *)

(** The coefficient vector is returned as the list of its two entries. *)
Definition estimate_beta (data : ndarray) : result (list float) :=
  data <- validate_xy_data data 2 ;;
  let xs := column 0 (rows_of data) in
  let ys := column 1 (rows_of data) in
  let design := column_stack (ones (length xs)) xs in
  inverse <- linalg_inv (matmul (transpose design) design) ;;
  let beta := matvec (matmul inverse (transpose design)) ys in
  Ok beta.

Definition bootstrap_samples (data : ndarray) (B : pyval) (seed : pyval)
    (os : Z) : result ndarray :=
  data <- validate_xy_data data 2 ;;
  B <- validate_int "B" B (Some 1%Z) None ;;
  sr <- validate_rng_seed seed os ;;
  let rng := snd sr in
  let n := nth 0 (shape data) 0%nat in
  let indices := fst (integers_2d rng 0 (Z.of_nat n) (Z.to_nat B) n) in
  samples <- mapM (mapM (take_row (rows_of data))) indices ;;
  Ok (Nd3 n 2 samples).

Definition sample_std (values : ndarray) : result float :=
  if negb (ndim values =? 1)%nat
  then Raise (ValueError (values_not_1d (ndim values)))
  else
    let values := match values with Nd1 v => v | _ => [] end in
    if (length values <? 2)%nat
    then Raise (ValueError (values_too_few (length values)))
    else
      let n := length values in
      let mean_value := fdiv (fsum values) (float_of_nat n) in
      let variance :=
        fdiv (fsum (map (fun v => let d := fsub v mean_value in fmul d d) values))
             (float_of_nat (n - 1)) in
      Ok (fsqrt variance).

Definition bootstrap_beta (data : ndarray) (B : pyval) (parallel : pyval)
    (n_jobs : pyval) (seed : pyval) (os : Z) (sched : list nat) : result float :=
  data <- validate_xy_data data 2 ;;
  B <- validate_int "B" B (Some 2%Z) None ;;
  n_jobs <- validate_int "n_jobs" n_jobs (Some 1%Z) None ;;
  parallel <- match parallel with
              | PyBool b => Ok b
              | _ => Raise (TypeError (parallel_not_bool parallel))
              end ;;
  sr <- validate_rng_seed seed os ;;
  let seed := fst sr in
  samples <- bootstrap_samples data (PyInt B) (PyInt seed) os ;;
  betas <- (if negb parallel
            then mapM estimate_beta (iter_first_axis samples)
            else Parallel n_jobs sched estimate_beta (iter_first_axis samples)) ;;
  let se_beta1_hat := sample_std (Nd1 (column 1 betas)) in
  se_beta1_hat.

(** The seed drawn when none is given. *)
Definition fresh_seed (os : Z) : Z := fst (integers (seeded os) 0 (2 ^ 31 - 1)).

(** The indices [bootstrap_samples] draws for [B] resamples of [n] rows. *)
Definition drawn (seed : Z) (B : Z) (n : nat) : list (list Z) :=
  fst (integers_2d (seeded seed) 0 (Z.of_nat n) (Z.to_nat B) n).

End Core.

(** ** Objects and references

    A claim about what a call leaves untouched needs the arrays as objects:
    a [heap] holds the arrays alive, a reference is a position in it, and a
    computation threads the heap and may raise.  [new] allocates, [get] reads,
    [put] is the in-place write ([arr[...] = v], [arr += v]). *)

Definition heap : Type := list ndarray.
Definition ref : Type := nat.
Definition ST (A : Type) : Type := heap -> result A * heap.

Definition ret {A : Type} (a : A) : ST A := fun h => (Ok a, h).

Definition bindST {A B : Type} (m : ST A) (k : A -> ST B) : ST B :=
  fun h => match m h with
           | (Ok a, h') => k a h'
           | (Raise e, h') => (Raise e, h')
           end.

Definition lift {A : Type} (r : result A) : ST A := fun h => (r, h).

Definition new (a : ndarray) : ST ref := fun h => (Ok (length h), h ++ [a]).

Definition get (r : ref) : ST ndarray :=
  fun h => match nth_error h r with
           | Some a => (Ok a, h)
           | None => (Raise IndexError, h)
           end.

Fixpoint update (h : heap) (r : ref) (a : ndarray) : heap :=
  match h, r with
  | [], _ => []
  | _ :: h', O => a :: h'
  | b :: h', S r' => b :: update h' r' a
  end.

Definition put (r : ref) (a : ndarray) : ST unit := fun h => (Ok tt, update h r a).

(** [h'] holds every array of [h], unchanged, and possibly new ones. *)
Definition extends (h h' : heap) : Prop := exists ext, h' = h ++ ext.

(** A computation that only allocates and reads. *)
Definition allocates_only {A : Type} (m : ST A) : Prop :=
  forall h, extends h (snd (m h)).

Notation "x <~ m ;; k" := (bindST m (fun x => k))
  (at level 61, m at next level, right associativity).

(** [np.asarray(data)] of an array is that array, not a copy; the validators
    read it and hand the same object back. *)
Definition validate_xy_data_obj (data : ref) (min_rows : nat) : ST ref :=
  arr <~ get data ;;
  _ <~ lift (validate_xy_data arr min_rows) ;;
  ret data.

(** [estimate_beta] on objects: [xs] and [ys] are views of [data], every
    other intermediate value is a new array. *)
Definition estimate_beta_obj (data : ref) : ST ref :=
  data <~ validate_xy_data_obj data 2 ;;
  arr <~ get data ;;
  let xs := column 0 (rows_of arr) in
  let ys := column 1 (rows_of arr) in
  unit_column <~ new (Nd1 (ones (length xs))) ;;
  design <~ new (Nd2 2 (column_stack (ones (length xs)) xs)) ;;
  d <~ get design ;;
  gram <~ new (Nd2 2 (matmul (transpose (rows_of d)) (rows_of d))) ;;
  g <~ get gram ;;
  inv_rows <~ lift (linalg_inv (rows_of g)) ;;
  inverse <~ new (Nd2 2 inv_rows) ;;
  i <~ get inverse ;;
  hat <~ new (Nd2 (length xs) (matmul (rows_of i) (transpose (rows_of d)))) ;;
  p <~ get hat ;;
  new (Nd1 (matvec (rows_of p) ys)).

Section Objects.

Context {rng_impl : NumpyRandom}.

(** [bootstrap_samples] on objects: [data[indices]] is a copy. *)
Definition bootstrap_samples_obj (data : ref) (B : pyval) (seed : pyval)
    (os : Z) : ST ref :=
  data <~ validate_xy_data_obj data 2 ;;
  arr <~ get data ;;
  B <~ lift (validate_int "B" B (Some 1%Z) None) ;;
  sr <~ lift (validate_rng_seed seed os) ;;
  let n := nth 0 (shape arr) 0%nat in
  let drawn := fst (integers_2d (snd sr) 0 (Z.of_nat n) (Z.to_nat B) n) in
  indices <~ new (Nd2 n (map (map (fun i => Fin (IZR i))) drawn)) ;;
  samples <~ lift (mapM (mapM (take_row (rows_of arr))) drawn) ;;
  new (Nd3 n 2 samples).

End Objects.

(** ** Notions of the specification *)

(** The error kinds of the specification, read off the exception raised. *)
Inductive ErrorKind : Type :=
| TypeKind
| RangeKind
| ShapeKind
| NonFiniteKind
| SingularDesignKind
| OtherKind.

Definition kind_of (e : exn) : ErrorKind :=
  match e with
  | TypeError _ => TypeKind
  | ValueError (must_be_ge _ _ _) => RangeKind
  | ValueError (must_be_le _ _ _) => RangeKind
  | ValueError (must_be_positive _ _) => RangeKind
  | ValueError (seed_negative _) => RangeKind
  | ValueError (must_be_finite _ _) => NonFiniteKind
  | ValueError data_not_finite => NonFiniteKind
  | ValueError (data_not_2d _) => ShapeKind
  | ValueError (data_not_2_columns _) => ShapeKind
  | ValueError (data_too_few_rows _ _) => ShapeKind
  | ValueError (values_not_1d _) => ShapeKind
  | ValueError (values_too_few _) => ShapeKind
  | LinAlgError => SingularDesignKind
  | _ => OtherKind
  end.

(** The Dataset of [N] pairs of finite reals. *)
Definition dataset (pts : list (R * R)) : ndarray :=
  Nd2 2 (map (fun p => [Fin (fst p); Fin (snd p)]) pts).

(** A valid Dataset: numeric and finite, of shape (N, 2) with N >= 2. *)
Definition valid_dataset (d : ndarray) : Prop :=
  well_shaped d /\ validate_xy_data d 2 = Ok d.

Definition Rsum (l : list R) : R := fold_right Rplus 0 l.

(** The Bessel-corrected sample standard deviation, on the reals. *)
Definition bessel_sd (l : list R) : R :=
  let mean := Rsum l / INR (length l) in
  sqrt (Rsum (map (fun v => (v - mean) * (v - mean)) l) / INR (length l - 1)).

(** The determinant of X^T X for the design matrix of the points. *)
Definition gram_det (pts : list (R * R)) : R :=
  let xs := map fst pts in
  INR (length pts) * Rsum (map (fun x => x * x) xs) - Rsum xs * Rsum xs.

(** All x values of the points are identical. *)
Definition all_x_identical (pts : list (R * R)) : Prop :=
  forall p q, In p pts -> In q pts -> fst p = fst q.

(** The solution of the normal equations, intercept and slope. *)
Definition ols (pts : list (R * R)) : R * R :=
  let xs := map fst pts in
  let ys := map snd pts in
  let n := INR (length pts) in
  let Sx := Rsum xs in
  let Sxx := Rsum (map (fun x => x * x) xs) in
  let Sy := Rsum ys in
  let Sxy := Rsum (map (fun p => fst p * snd p) pts) in
  ((Sxx * Sy - Sx * Sxy) / gram_det pts, (n * Sxy - Sx * Sy) / gram_det pts).

(** The points a list of drawn row indices selects. *)
Definition pick (pts : list (R * R)) (idx : list Z) : list (R * R) :=
  map (fun i => nth (Z.to_nat i) pts (0, 0)) idx.


Section Replicates.

Context {rng_impl : NumpyRandom}.

(** The resampled Datasets drawn from the points for a seed and a count. *)
Definition resamples (pts : list (R * R)) (seed B : Z) : list ndarray :=
  map (fun idx => dataset (pick pts idx)) (drawn seed B (length pts)).

End Replicates.


(** ** cli.py

    [main] after [parse_args]: the parser has already given every option its
    type ([--N], [--B], [--n-jobs] and [--seed] are ints, the coefficients and
    sigmas floats, [--parallel] and [--log] flags).  What [main] writes is
    kept as the list of its outputs, in order.  Log lines, the creation of
    parent directories and the [meta] entry of the result (time stamp, run
    time, Python version) are left out; the time stamp that names the log
    directory is the argument [now]. *)

Record Args : Type := {
  arg_N : Z;
  arg_beta0 : float;
  arg_beta1 : float;
  arg_x_sigma : float;
  arg_eps_sigma : float;
  arg_seed : option Z;
  arg_B : Z;
  arg_parallel : bool;
  arg_n_jobs : Z;
  arg_out : option string;
  arg_save_data : option string;
  arg_log : bool
}.

(** The ["inputs"] and ["outputs"] entries of the result. *)
Record RunResult : Type := {
  in_N : Z;
  in_B : Z;
  in_beta0 : float;
  in_beta1 : float;
  in_x_sigma : float;
  in_eps_sigma : float;
  in_seed : Z;
  in_parallel : bool;
  in_n_jobs : Z;
  out_beta_hat : list float;
  out_se_boot_beta1 : float
}.

Inductive output : Type :=
| SaveData (path : string) (data : ndarray)
| WriteResult (path : string) (r : RunResult)
| PrintResult (r : RunResult).

(** [if path:] for an optional path: [None] and the empty string are false. *)
Definition given (path : option string) : bool :=
  match path with
  | Some s => negb (String.eqb s "")
  | None => false
  end.

Definition path_of (path : option string) : string :=
  match path with Some s => s | None => "" end.

(** [os.path.join(a, b)] for a relative [b]. *)
Definition path_join (a b : string) : string := a ++ "/" ++ b.

Definition pyval_of_seed (seed : option Z) : pyval :=
  match seed with Some z => PyInt z | None => PyNone end.

Section Cli.

Context {rng_impl : NumpyRandom}.

(** The [try] block of [main]. *)
Definition validate_args (args : Args) (os : Z)
    : result (Z * Z * Z * float * float * Z) :=
  N <- validate_int "N" (PyInt (arg_N args)) (Some 2%Z) None ;;
  B <- validate_int "B" (PyInt (arg_B args)) (Some 2%Z) None ;;
  n_jobs <- validate_int "n_jobs" (PyInt (arg_n_jobs args)) (Some 1%Z) None ;;
  x_sigma <- validate_positive "x_sigma" (PyFloat (arg_x_sigma args)) ;;
  eps_sigma <- validate_positive "eps_sigma" (PyFloat (arg_eps_sigma args)) ;;
  sr <- validate_rng_seed (pyval_of_seed (arg_seed args)) os ;;
  Ok (N, B, n_jobs, x_sigma, eps_sigma, fst sr).

Definition main (args : Args) (os : Z) (sched : list nat) (now : string)
    : result (Z * list output) :=
  match validate_args args os with
  | Raise (TypeError _) => Ok (2%Z, [])
  | Raise (ValueError _) => Ok (2%Z, [])
  | Raise e => Raise e
  | Ok (N, B, n_jobs, x_sigma, eps_sigma, seed) =>
      let beta0 := arg_beta0 args in
      let beta1 := arg_beta1 args in
      let log_dir := path_join "artifacts" now in
      data <- simulate_data (PyInt N) beta0 beta1 (PyFloat x_sigma)
                            (PyFloat eps_sigma) (PyInt seed) os ;;
      beta_hat <- estimate_beta data ;;
      se_boot <- bootstrap_beta data (PyInt B) (PyBool (arg_parallel args))
                                (PyInt n_jobs) (PyInt seed) os sched ;;
      let saved :=
        (if given (arg_save_data args)
         then [SaveData (path_of (arg_save_data args)) data] else []) ++
        (if arg_log args
         then [SaveData (path_join log_dir "data.csv") data] else []) in
      let r := {| in_N := N; in_B := B; in_beta0 := beta0; in_beta1 := beta1;
                  in_x_sigma := x_sigma; in_eps_sigma := eps_sigma;
                  in_seed := seed; in_parallel := arg_parallel args;
                  in_n_jobs := n_jobs;
                  out_beta_hat := beta_hat; out_se_boot_beta1 := se_boot |} in
      let written :=
        (if given (arg_out args)
         then [WriteResult (path_of (arg_out args)) r] else []) ++
        (if arg_log args
         then [WriteResult (path_join log_dir "result.json") r] else []) ++
        (if negb (given (arg_out args)) && negb (arg_log args)
         then [PrintResult r] else []) in
      Ok (0%Z, saved ++ written)
  end.

End Cli.

(** [args] with [--seed] set. *)
Definition with_seed (args : Args) (seed : Z) : Args :=
  {| arg_N := arg_N args; arg_beta0 := arg_beta0 args;
     arg_beta1 := arg_beta1 args; arg_x_sigma := arg_x_sigma args;
     arg_eps_sigma := arg_eps_sigma args; arg_seed := Some seed;
     arg_B := arg_B args; arg_parallel := arg_parallel args;
     arg_n_jobs := arg_n_jobs args; arg_out := arg_out args;
     arg_save_data := arg_save_data args; arg_log := arg_log args |}.

(** The command line of the module's docstring, without the output paths:
    [--N 200 --B 1000 --seed 17] and the parser's defaults. *)
Definition example_args : Args :=
  {| arg_N := 200; arg_beta0 := Fin 1; arg_beta1 := Fin 2;
     arg_x_sigma := Fin 1; arg_eps_sigma := Fin 1; arg_seed := Some 17%Z;
     arg_B := 1000; arg_parallel := false; arg_n_jobs := 1;
     arg_out := None; arg_save_data := None; arg_log := false |}.

(** The arguments that pass the [try] block of [main]. *)
Definition valid_args (args : Args) : Prop :=
  (2 <= arg_N args)%Z /\ (2 <= arg_B args)%Z /\ (1 <= arg_n_jobs args)%Z /\
  (exists r, arg_x_sigma args = Fin r /\ 0 < r) /\
  (exists r, arg_eps_sigma args = Fin r /\ 0 < r) /\
  (forall z, arg_seed args = Some z -> (0 <= z)%Z).

(** The results and the data among the outputs of a run. *)
Definition results_in (outs : list output) : list RunResult :=
  flat_map (fun o => match o with
                     | WriteResult _ r => [r]
                     | PrintResult r => [r]
                     | SaveData _ _ => []
                     end) outs.

Definition printed_in (outs : list output) : list RunResult :=
  flat_map (fun o => match o with PrintResult r => [r] | _ => [] end) outs.

Definition data_in (outs : list output) : list ndarray :=
  flat_map (fun o => match o with SaveData _ d => [d] | _ => [] end) outs.

Section CliNotions.

Context {rng_impl : NumpyRandom}.

(** The seed a run works with: the one given, or the one drawn. *)
Definition seed_used (args : Args) (os : Z) : Z :=
  match arg_seed args with
  | Some z => z
  | None => fresh_seed os
  end.

(** The result a run reports for the coefficients and the standard error
    it has computed, and what it then writes. *)
Definition result_of (args : Args) (os : Z) (beta_hat : list float)
    (se_boot : float) : RunResult :=
  {| in_N := arg_N args; in_B := arg_B args;
     in_beta0 := arg_beta0 args; in_beta1 := arg_beta1 args;
     in_x_sigma := arg_x_sigma args; in_eps_sigma := arg_eps_sigma args;
     in_seed := seed_used args os; in_parallel := arg_parallel args;
     in_n_jobs := arg_n_jobs args;
     out_beta_hat := beta_hat; out_se_boot_beta1 := se_boot |}.

Definition outputs_of (args : Args) (now : string) (data : ndarray)
    (r : RunResult) : list output :=
  ((if given (arg_save_data args)
    then [SaveData (path_of (arg_save_data args)) data] else []) ++
   (if arg_log args
    then [SaveData (path_join (path_join "artifacts" now) "data.csv") data]
    else [])) ++
  ((if given (arg_out args)
    then [WriteResult (path_of (arg_out args)) r] else []) ++
   (if arg_log args
    then [WriteResult (path_join (path_join "artifacts" now) "result.json") r]
    else []) ++
   (if negb (given (arg_out args)) && negb (arg_log args)
    then [PrintResult r] else [])).

End CliNotions.

(** [--N 2 --B 2 --beta0 0 --beta1 1 --seed 0]. *)
Definition small_args : Args :=
  {| arg_N := 2; arg_beta0 := Fin 0; arg_beta1 := Fin 1;
     arg_x_sigma := Fin 1; arg_eps_sigma := Fin 1; arg_seed := Some 0%Z;
     arg_B := 2; arg_parallel := false; arg_n_jobs := 1;
     arg_out := None; arg_save_data := None; arg_log := false |}.

(** [small_args] without [--seed], and with [--beta1 nan]. *)
Definition seedless_args : Args :=
  {| arg_N := 2; arg_beta0 := Fin 0; arg_beta1 := Fin 1;
     arg_x_sigma := Fin 1; arg_eps_sigma := Fin 1; arg_seed := None;
     arg_B := 2; arg_parallel := false; arg_n_jobs := 1;
     arg_out := None; arg_save_data := None; arg_log := false |}.

Definition nan_slope_args : Args :=
  {| arg_N := 2; arg_beta0 := Fin 0; arg_beta1 := NaN;
     arg_x_sigma := Fin 1; arg_eps_sigma := Fin 1; arg_seed := Some 0%Z;
     arg_B := 2; arg_parallel := false; arg_n_jobs := 1;
     arg_out := None; arg_save_data := None; arg_log := false |}.

(** ** A reference generator

    A small deterministic generator that meets the laws of [NumpyRandom];
    the statements below are instantiated with it at concrete inputs. *)

Definition ref_default_rng (seed : pyval) (os : Z) : result Z :=
  match seed with
  | PyNone => Ok os
  | PyInt z => if (z <? 0)%Z then Raise (ValueError (seed_negative z)) else Ok z
  | PyBool b => Ok (if b then 1%Z else 0%Z)
  | _ => Raise (TypeError other_message)
  end.

Definition ref_integers (g low high : Z) : Z * Z :=
  ((low + g mod (high - low))%Z, (g + 1)%Z).

Definition ref_integers_2d (g low high : Z) (r c : nat) : list (list Z) * Z :=
  (map (fun i => map (fun j => (low + (g + Z.of_nat (j + i * (j / 2))) mod (high - low))%Z)
                     (seq 0 c)) (seq 0 r),
   (g + Z.of_nat (r * c))%Z).

Definition ref_normal (g : Z) (loc scale : float) (n : nat) : list float * Z :=
  (map (fun j => fadd loc (fmul scale (Fin (IZR (g + Z.of_nat j))))) (seq 0 n),
   (g + Z.of_nat n)%Z).

Definition reference_rng : NumpyRandom.
Proof.
  refine {| Generator := Z;
            seeded := fun z => z;
            default_rng := ref_default_rng;
            integers := ref_integers;
            integers_2d := ref_integers_2d;
            normal := ref_normal |}.
  - reflexivity.
  - intros z os Hz. unfold ref_default_rng.
    destruct (Z.ltb_spec z 0); [lia | reflexivity].
  - intros z os Hz. unfold ref_default_rng.
    destruct (Z.ltb_spec z 0); [reflexivity | lia].
  - intros g low high Hlt. simpl.
    pose proof (Z.mod_pos_bound g (high - low)). lia.
  - intros g low high r c. simpl. split.
    + now rewrite length_map, length_seq.
    + apply Forall_forall. intros row Hin.
      apply in_map_iff in Hin. destruct Hin as [i [<- _]].
      now rewrite length_map, length_seq.
  - intros g low high r c Hlt. simpl.
    apply Forall_forall. intros row Hin.
    apply in_map_iff in Hin. destruct Hin as [i [<- _]].
    apply Forall_forall. intros z Hz.
    apply in_map_iff in Hz. destruct Hz as [j [<- _]].
    match goal with
    | |- context [(?a mod ?b)%Z] => pose proof (Z.mod_pos_bound a b)
    end. lia.
  - intros g loc scale n. simpl. now rewrite length_map, length_seq.
  - intros g loc scale n Hloc Hscale. simpl.
    destruct loc; try discriminate. destruct scale; try discriminate.
    apply forallb_forall. intros x Hx.
    apply in_map_iff in Hx. destruct Hx as [j [<- _]]. reflexivity.
Defined.

(** * Properties *)

(** ** Sums of finite values *)

Lemma fold_fadd_Fin (l : list R) (a : R) :
  fold_left fadd (map Fin l) (Fin a) = Fin (a + Rsum l).
Proof.
  revert a. induction l as [|x l IH]; intros a; simpl.
  - f_equal. lra.
  - rewrite IH. f_equal. lra.
Qed.

Lemma fsum_Fin (l : list R) : fsum (map Fin l) = Fin (Rsum l).
Proof. unfold fsum. rewrite fold_fadd_Fin. f_equal. lra. Qed.

Lemma dot_Fin (a b : list R) :
  dot (map Fin a) (map Fin b) =
  Fin (Rsum (map (fun p => fst p * snd p) (combine a b))).
Proof.
  unfold dot. rewrite <- fsum_Fin. f_equal.
  revert b. induction a as [|x a IH]; intros [|y b]; simpl; try reflexivity.
  now rewrite IH.
Qed.

Lemma Rsum_app (l1 l2 : list R) : Rsum (l1 ++ l2) = Rsum l1 + Rsum l2.
Proof. induction l1 as [|x l1 IH]; simpl; [lra | rewrite IH; lra]. Qed.


Lemma Rsum_plus {A : Type} (f g : A -> R) (l : list A) :
  Rsum (map (fun x => f x + g x) l) = Rsum (map f l) + Rsum (map g l).
Proof. induction l as [|x l IH]; simpl; [lra | rewrite IH; lra]. Qed.

Lemma Rsum_ext {A : Type} (f g : A -> R) (l : list A) :
  (forall x, In x l -> f x = g x) -> Rsum (map f l) = Rsum (map g l).
Proof.
  induction l as [|x l IH]; intros H; simpl; [reflexivity|].
  rewrite (H x (or_introl eq_refl)), IH; [reflexivity|].
  intros y Hy. apply H. now right.
Qed.

Lemma Rsum_const {A : Type} (c : R) (l : list A) :
  Rsum (map (fun _ => c) l) = INR (length l) * c.
Proof.
  induction l as [|x l IH]; [simpl; lra|].
  change (c + Rsum (map (fun _ => c) l) = INR (S (length l)) * c).
  rewrite IH, S_INR. lra.
Qed.

Lemma Rsum_nonneg (l : list R) : Forall (fun x => 0 <= x) l -> 0 <= Rsum l.
Proof. induction 1; simpl; lra. Qed.

Lemma Rsum_zero_all (l : list R) :
  Forall (fun x => 0 <= x) l -> Rsum l = 0 -> Forall (fun x => x = 0) l.
Proof.
  induction 1 as [|x l Hx Hl IH]; intros Hs; [constructor|].
  simpl in Hs. pose proof (Rsum_nonneg l Hl).
  constructor; [lra | apply IH; lra].
Qed.

(** ** Valid Datasets *)

Lemma all_finite_dataset (pts : list (R * R)) : all_finite (dataset pts) = true.
Proof.
  simpl. apply forallb_forall. intros r Hr.
  apply in_map_iff in Hr. destruct Hr as [p [<- _]]. reflexivity.
Qed.

Lemma validate_dataset (pts : list (R * R)) (min_rows : nat) :
  (min_rows <= length pts)%nat ->
  validate_xy_data (dataset pts) min_rows = Ok (dataset pts).
Proof.
  intros Hn. unfold validate_xy_data.
  rewrite all_finite_dataset.
  change (ndim (dataset pts)) with 2%nat.
  change (shape (dataset pts))
    with [length (map (fun p : R * R => [Fin (fst p); Fin (snd p)]) pts); 2%nat].
  cbn [nth Nat.eqb negb is_numeric dataset].
  rewrite length_map.
  destruct (Nat.ltb_spec (length pts) min_rows); [lia | reflexivity].
Qed.

Lemma well_shaped_dataset (pts : list (R * R)) : well_shaped (dataset pts).
Proof.
  simpl. apply Forall_forall. intros r Hr.
  apply in_map_iff in Hr. destruct Hr as [p [<- _]]. reflexivity.
Qed.

Lemma valid_dataset_of_points (pts : list (R * R)) :
  (2 <= length pts)%nat -> valid_dataset (dataset pts).
Proof.
  intros H. split; [apply well_shaped_dataset | now apply validate_dataset].
Qed.

Lemma finite_rows_points (rows : list (list float)) :
  Forall (fun r => length r = 2%nat) rows ->
  forallb (forallb isfinite) rows = true ->
  exists pts, rows = map (fun p => [Fin (fst p); Fin (snd p)]) pts.
Proof.
  induction 1 as [|r rows Hr _ IH]; intros Hf.
  - now exists [].
  - simpl in Hf. apply andb_prop in Hf. destruct Hf as [Hfr Hf].
    destruct (IH Hf) as [pts ->].
    destruct r as [|x [|y [|z r]]]; try discriminate.
    destruct x as [xr| | |]; try discriminate.
    destruct y as [yr| | |]; try discriminate.
    now exists ((xr, yr) :: pts).
Qed.

Lemma validate_xy_data_inv (d : ndarray) (min_rows : nat) (d' : ndarray) :
  validate_xy_data d min_rows = Ok d' ->
  d' = d /\ (exists rows, d = Nd2 2 rows /\ (min_rows <= length rows)%nat) /\
  all_finite d = true.
Proof.
  unfold validate_xy_data. intros H.
  destruct (ndim d =? 2)%nat eqn:Hd; [|discriminate].
  destruct (nth 1 (shape d) 0 =? 2)%nat eqn:Hc; [|discriminate].
  destruct (nth 0 (shape d) 0 <? min_rows)%nat eqn:Hr; [discriminate|].
  destruct (is_numeric d) eqn:Hn; [|discriminate].
  destruct (all_finite d) eqn:Hf; [|discriminate].
  simpl in H. injection H as <-.
  split; [reflexivity|]. split; [|reflexivity].
  destruct d as [x|v|c rows|r c blocks|s]; try discriminate.
  simpl in Hc, Hr. apply Nat.eqb_eq in Hc. subst c.
  apply Nat.ltb_ge in Hr. now exists rows.
Qed.

Lemma valid_dataset_points (d : ndarray) :
  valid_dataset d <-> exists pts, d = dataset pts /\ (2 <= length pts)%nat.
Proof.
  split.
  - intros [Hw Hv]. apply validate_xy_data_inv in Hv.
    destruct Hv as [_ [[rows [-> Hlen]] Hf]].
    destruct (finite_rows_points rows Hw Hf) as [pts ->].
    exists pts. split; [reflexivity|]. now rewrite length_map in Hlen.
  - intros [pts [-> Hlen]]. now apply valid_dataset_of_points.
Qed.

(** ** The OLS estimator in closed form *)

Lemma combine_map_same {A B C : Type} (f : A -> B) (g : A -> C) (l : list A) :
  combine (map f l) (map g l) = map (fun x => (f x, g x)) l.
Proof. induction l as [|x l IH]; simpl; [reflexivity | now rewrite IH]. Qed.

Lemma map_nth_seq {A B : Type} (G : A -> B) (l : list A) (d : A) :
  map (fun j => G (nth j l d)) (seq 0 (length l)) = map G l.
Proof.
  induction l as [|x l IH]; [reflexivity|].
  simpl. f_equal. rewrite <- IH, <- seq_shift, map_map. reflexivity.
Qed.

Lemma column_dataset (pts : list (R * R)) :
  column 0 (rows_of (dataset pts)) = map Fin (map fst pts) /\
  column 1 (rows_of (dataset pts)) = map Fin (map snd pts).
Proof. unfold column. simpl. now rewrite !map_map. Qed.

Lemma column_stack_ones (xs : list R) :
  column_stack (ones (length (map Fin xs))) (map Fin xs) =
  map (fun x => [Fin 1; Fin x]) xs.
Proof.
  unfold column_stack, ones. rewrite length_map.
  induction xs as [|x xs IH]; simpl; [reflexivity | now rewrite IH].
Qed.

Lemma dot_map {A : Type} (f g : A -> R) (l : list A) :
  dot (map (fun x => Fin (f x)) l) (map (fun x => Fin (g x)) l) =
  Fin (Rsum (map (fun x => f x * g x) l)).
Proof.
  unfold dot. rewrite combine_map_same, map_map. cbn [fst snd fmul].
  rewrite <- (map_map (fun x => f x * g x) Fin). apply fsum_Fin.
Qed.

Lemma transpose_design (xs : list R) :
  xs <> [] ->
  transpose (map (fun x => [Fin 1; Fin x]) xs) =
  [map (fun _ => Fin 1) xs; map (fun x => Fin x) xs].
Proof.
  intros Hne. unfold transpose, width, column.
  destruct xs as [|x xs]; [congruence|].
  cbn [map hd length seq]. rewrite !map_map. reflexivity.
Qed.

Lemma gram_design (xs : list R) :
  xs <> [] ->
  let design := map (fun x => [Fin 1; Fin x]) xs in
  matmul (transpose design) design =
  [[Fin (INR (length xs)); Fin (Rsum xs)];
   [Fin (Rsum xs); Fin (Rsum (map (fun x => x * x) xs))]].
Proof.
  intros Hne design. subst design. rewrite transpose_design by assumption.
  unfold matmul.
  assert (Hw : width (map (fun x => [Fin 1; Fin x]) xs) = 2%nat).
  { destruct xs; [congruence | reflexivity]. }
  rewrite Hw. unfold column. cbn [seq map]. rewrite !map_map. cbn [nth].
  rewrite (dot_map (fun _ => 1) (fun _ => 1)).
  rewrite (dot_map (fun _ => 1) (fun x => x)).
  rewrite (dot_map (fun x => x) (fun _ => 1)).
  rewrite (dot_map (fun x => x) (fun x => x)).
  rewrite (Rsum_ext (fun _ : R => 1 * 1) (fun _ => 1)) by (intros; lra).
  rewrite Rsum_const.
  rewrite (Rsum_ext (fun x : R => 1 * x) (fun x => x)) by (intros; lra).
  rewrite (Rsum_ext (fun x : R => x * 1) (fun x => x)) by (intros; lra).
  rewrite map_id.
  replace (INR (length xs) * 1) with (INR (length xs)) by lra.
  reflexivity.
Qed.

Lemma linalg_inv_Fin (a b c d : R) :
  linalg_inv [[Fin a; Fin b]; [Fin c; Fin d]] =
  if Req_EM_T (a * d - b * c) 0 then Raise LinAlgError
  else Ok [[Fin (d / (a * d - b * c)); Fin (- b / (a * d - b * c))];
           [Fin (- c / (a * d - b * c)); Fin (a / (a * d - b * c))]].
Proof.
  unfold linalg_inv, fsub. cbn [fmul fneg fadd feqb].
  replace (a * d + - (b * c)) with (a * d - b * c) by lra.
  destruct (Req_EM_T (a * d - b * c) 0) as [Hz|Hnz]; [reflexivity|].
  unfold fdiv, Rzerob.
  destruct (Req_EM_T (a * d - b * c) 0); [contradiction | reflexivity].
Qed.

Lemma nth_map_in {A B : Type} (f : A -> B) (l : list A) (d : B) (d0 : A) (j : nat) :
  (j < length l)%nat -> nth j (map f l) d = f (nth j l d0).
Proof.
  intros Hj. rewrite (nth_indep _ d (f d0)) by (rewrite length_map; lia).
  apply map_nth.
Qed.

Lemma hat_row (p q : R) (xs : list R) :
  map (fun j => dot [Fin p; Fin q]
                    (column j [map (fun _ => Fin 1) xs; map (fun x => Fin x) xs]))
      (seq 0 (length xs)) =
  map (fun x => Fin (p + q * x)) xs.
Proof.
  rewrite <- (map_nth_seq (fun x => Fin (p + q * x)) xs 0).
  apply map_ext_in. intros j Hj. apply in_seq in Hj.
  unfold column. cbn [map].
  rewrite (nth_map_in (fun _ => Fin 1) xs NaN 0) by lia.
  rewrite (nth_map_in (fun x => Fin x) xs NaN 0) by lia.
  unfold dot, fsum. cbn [combine map fst snd fold_left fmul fadd].
  f_equal. ring.
Qed.

Lemma Rsum_affine (p q : R) (pts : list (R * R)) :
  Rsum (map (fun pt => (p + q * fst pt) * snd pt) pts) =
  p * Rsum (map snd pts) + q * Rsum (map (fun pt => fst pt * snd pt) pts).
Proof.
  induction pts as [|pt pts IH]; simpl; [ring|]. rewrite IH. ring.
Qed.

Lemma gram_det_map_fst (pts : list (R * R)) :
  INR (length (map fst pts)) * Rsum (map (fun x => x * x) (map fst pts)) -
  Rsum (map fst pts) * Rsum (map fst pts) = gram_det pts.
Proof. unfold gram_det. now rewrite length_map. Qed.

(** On a valid Dataset the estimator raises [LinAlgError] when X^T X is
    singular and returns the solution of the normal equations otherwise. *)
Lemma estimate_beta_dataset (pts : list (R * R)) :
  (2 <= length pts)%nat ->
  estimate_beta (dataset pts) =
  if Req_EM_T (gram_det pts) 0 then Raise LinAlgError
  else Ok [Fin (fst (ols pts)); Fin (snd (ols pts))].
Proof.
  intros Hlen. unfold estimate_beta.
  rewrite validate_dataset by assumption. cbn [bind].
  destruct (column_dataset pts) as [-> ->].
  rewrite column_stack_ones.
  assert (Hne : map fst pts <> []).
  { destruct pts; [simpl in Hlen; lia | discriminate]. }
  rewrite (gram_design (map fst pts) Hne).
  rewrite linalg_inv_Fin, gram_det_map_fst.
  destruct (Req_EM_T (gram_det pts) 0) as [Hz|Hnz]; [reflexivity|].
  cbn [bind]. f_equal.
  rewrite transpose_design by assumption.
  unfold matmul.
  replace (width [map (fun _ : R => Fin 1) (map fst pts);
                  map (fun x : R => Fin x) (map fst pts)])
    with (length (map fst pts))
    by (unfold width; cbn [hd]; now rewrite !length_map).
  cbn [map]. rewrite !hat_row. unfold matvec. cbn [map].
  rewrite !map_map.
  rewrite (dot_map (fun pt => _ + _ * fst pt) snd).
  rewrite (dot_map (fun pt => _ + _ * fst pt) snd).
  rewrite !Rsum_affine.
  unfold ols. cbn [fst snd].
  rewrite length_map.
  set (D := gram_det pts) in *.
  rewrite ?map_map.
  f_equal; [f_equal; field; exact Hnz | f_equal; f_equal; field; exact Hnz].
Qed.

(** ** Singular designs *)

Lemma Rsum_square_shift (c s : R) (xs : list R) :
  Rsum (map (fun x => (c * x - s) * (c * x - s)) xs) =
  c * c * Rsum (map (fun x => x * x) xs) - 2 * c * s * Rsum xs +
  INR (length xs) * (s * s).
Proof.
  induction xs as [|x xs IH].
  - simpl. ring.
  - cbn [map Rsum fold_right length]. fold (Rsum (map (fun x => (c * x - s) * (c * x - s)) xs)).
    fold (Rsum (map (fun x => x * x) xs)). fold (Rsum xs).
    rewrite IH, S_INR. ring.
Qed.

Lemma gram_det_squares (pts : list (R * R)) :
  let n := INR (length pts) in
  let Sx := Rsum (map fst pts) in
  Rsum (map (fun x => (n * x - Sx) * (n * x - Sx)) (map fst pts)) =
  n * gram_det pts.
Proof.
  intros n Sx. rewrite Rsum_square_shift, length_map.
  unfold gram_det. fold n. fold Sx. ring.
Qed.

Lemma gram_det_zero_identical (pts : list (R * R)) :
  pts <> [] -> gram_det pts = 0 -> all_x_identical pts.
Proof.
  intros Hne Hz.
  pose proof (gram_det_squares pts) as Hsq. cbv zeta in Hsq.
  rewrite Hz, Rmult_0_r in Hsq.
  apply Rsum_zero_all in Hsq.
  2:{ apply Forall_forall. intros y Hy. apply in_map_iff in Hy.
      destruct Hy as [x [<- _]]. apply Rle_0_sqr. }
  assert (Hn : 0 < INR (length pts)).
  { apply lt_0_INR. destruct pts; [congruence | simpl; lia]. }
  assert (Hall : forall p, In p pts ->
                 fst p = Rsum (map fst pts) / INR (length pts)).
  { intros p Hp. rewrite Forall_forall in Hsq.
    specialize (Hsq ((INR (length pts) * fst p - Rsum (map fst pts)) *
                     (INR (length pts) * fst p - Rsum (map fst pts)))).
    assert (Hin : In ((INR (length pts) * fst p - Rsum (map fst pts)) *
                      (INR (length pts) * fst p - Rsum (map fst pts)))
                     (map (fun x => (INR (length pts) * x - Rsum (map fst pts)) *
                                    (INR (length pts) * x - Rsum (map fst pts)))
                          (map fst pts))).
    { apply in_map_iff. exists (fst p). split; [reflexivity|].
      now apply in_map. }
    specialize (Hsq Hin).
    assert (Hd : INR (length pts) * fst p - Rsum (map fst pts) = 0) by nra.
    field_simplify_eq; lra. }
  intros p q Hp Hq. rewrite (Hall p Hp), (Hall q Hq). reflexivity.
Qed.

Lemma Rsum_map_const {A : Type} (f : A -> R) (c : R) (l : list A) :
  (forall x, In x l -> f x = c) -> Rsum (map f l) = INR (length l) * c.
Proof.
  intros H. rewrite (Rsum_ext f (fun _ => c)) by assumption. apply Rsum_const.
Qed.

Lemma identical_gram_det_zero (pts : list (R * R)) :
  all_x_identical pts -> gram_det pts = 0.
Proof.
  intros Hall. destruct pts as [|p0 pts0].
  - unfold gram_det. simpl. ring.
  - set (pts := p0 :: pts0) in *.
    assert (Hc : forall p, In p pts -> fst p = fst p0).
    { intros p Hp. apply Hall; [assumption | now left]. }
    unfold gram_det. rewrite map_map.
    rewrite (Rsum_map_const (fun p => fst p * fst p) (fst p0 * fst p0)).
    2:{ intros p Hp. now rewrite (Hc p Hp). }
    rewrite (Rsum_map_const fst (fst p0)) by assumption.
    ring.
Qed.

Lemma gram_det_zero_iff (pts : list (R * R)) :
  pts <> [] -> (gram_det pts = 0 <-> all_x_identical pts).
Proof.
  intros Hne. split;
    [now apply gram_det_zero_identical | apply identical_gram_det_zero].
Qed.




(** ** Noiseless recovery *)

Lemma Rsum_line (a b : R) (pts : list (R * R)) :
  (forall p, In p pts -> snd p = a + b * fst p) ->
  Rsum (map snd pts) = INR (length pts) * a + b * Rsum (map fst pts) /\
  Rsum (map (fun p => fst p * snd p) pts) =
  a * Rsum (map fst pts) + b * Rsum (map (fun x => x * x) (map fst pts)).
Proof.
  induction pts as [|p pts IH]; intros Hline.
  - simpl. split; ring.
  - destruct IH as [IH1 IH2].
    { intros q Hq. apply Hline. now right. }
    pose proof (Hline p (or_introl eq_refl)) as Hp.
    cbn [map Rsum fold_right length].
    fold (Rsum (map snd pts)). fold (Rsum (map fst pts)).
    fold (Rsum (map (fun p => fst p * snd p) pts)).
    fold (Rsum (map (fun x => x * x) (map fst pts))).
    rewrite IH1, IH2, Hp, S_INR. split; ring.
Qed.

Lemma estimate_beta_line (a b : R) (pts : list (R * R)) :
  (2 <= length pts)%nat ->
  (forall p, In p pts -> snd p = a + b * fst p) ->
  ~ all_x_identical pts ->
  estimate_beta (dataset pts) = Ok [Fin a; Fin b].
Proof.
  intros Hlen Hline Hx.
  rewrite estimate_beta_dataset by assumption.
  destruct (Req_EM_T (gram_det pts) 0) as [Hz|Hnz].
  - exfalso. apply Hx. apply gram_det_zero_identical; [|exact Hz].
    destruct pts; [simpl in Hlen; lia | discriminate].
  - destruct (Rsum_line a b pts Hline) as [HSy HSxy].
    unfold ols. cbn [fst snd]. rewrite HSy, HSxy.
    unfold gram_det in *.
    set (n := INR (length pts)) in *.
    set (Sx := Rsum (map fst pts)) in *.
    set (Sxx := Rsum (map (fun x => x * x) (map fst pts))) in *.
    f_equal. f_equal; [|f_equal]; f_equal; field; exact Hnz.
Qed.



(** ** Results of loops *)

Lemma mapM_ok {A B : Type} (f : A -> result B) (g : A -> B) (xs : list A) :
  (forall x, In x xs -> f x = Ok (g x)) -> mapM f xs = Ok (map g xs).
Proof.
  induction xs as [|x xs IH]; intros H; [reflexivity|].
  cbn [mapM map]. rewrite (H x (or_introl eq_refl)). cbn [bind].
  rewrite IH by (intros y Hy; apply H; now right). reflexivity.
Qed.

Lemma mapM_ok_inv {A B : Type} (f : A -> result B) (xs : list A) (ys : list B) :
  mapM f xs = Ok ys -> Forall2 (fun x y => f x = Ok y) xs ys.
Proof.
  revert ys. induction xs as [|x xs IH]; intros ys H.
  - injection H as <-. constructor.
  - cbn [mapM] in H. destruct (f x) as [y|e] eqn:Hx; [|discriminate].
    cbn [bind] in H. destruct (mapM f xs) as [ys'|e]; [|discriminate].
    injection H as <-. constructor; [exact Hx | now apply IH].
Qed.

Lemma mapM_raise_inv {A B : Type} (f : A -> result B) (xs : list A) (e : exn) :
  mapM f xs = Raise e -> exists x, In x xs /\ f x = Raise e.
Proof.
  induction xs as [|x xs IH]; intros H; [discriminate|].
  cbn [mapM] in H. destruct (f x) as [y|e'] eqn:Hx.
  - cbn [bind] in H. destruct (mapM f xs) as [ys|e'] eqn:Hxs; [discriminate|].
    injection H as ->. destruct (IH eq_refl) as [x' [Hin Hr]].
    exists x'. split; [now right | exact Hr].
  - injection H as ->. exists x. split; [now left | exact Hx].
Qed.

Lemma mapM_total {A B : Type} (f : A -> result B) (xs : list A) :
  (exists ys, mapM f xs = Ok ys) \/ (exists e, mapM f xs = Raise e).
Proof. destruct (mapM f xs) as [ys|e]; [left; now exists ys | right; now exists e]. Qed.

Lemma mapM_raise_some {A B : Type} (f : A -> result B) (xs : list A) (x : A) (e : exn) :
  In x xs -> f x = Raise e -> exists e', mapM f xs = Raise e'.
Proof.
  intros Hin Hx. destruct (mapM f xs) as [ys|e'] eqn:H; [|now exists e'].
  apply mapM_ok_inv in H. exfalso.
  induction H as [|x' y xs ys Hxy _ IH]; [contradiction|].
  destruct Hin as [->|Hin]; [congruence | now apply IH].
Qed.

(** ** Validators on well-typed arguments *)

Lemma validate_int_ok (name : string) (z lo : Z) :
  (lo <= z)%Z -> validate_int name (PyInt z) (Some lo) None = Ok z.
Proof.
  intros H. unfold validate_int.
  destruct (Z.ltb_spec z lo); [lia | reflexivity].
Qed.

Lemma validate_int_low (name : string) (z lo : Z) :
  (z < lo)%Z ->
  validate_int name (PyInt z) (Some lo) None = Raise (ValueError (must_be_ge name lo z)).
Proof.
  intros H. unfold validate_int.
  destruct (Z.ltb_spec z lo); [reflexivity | lia].
Qed.

Lemma take_row_in_range (rows : list (list float)) (i : Z) :
  (0 <= i < Z.of_nat (length rows))%Z ->
  take_row rows i = Ok (nth (Z.to_nat i) rows []).
Proof.
  intros Hi. unfold take_row.
  destruct (Z.ltb_spec i (- Z.of_nat (length rows))); [lia|].
  destruct (Z.leb_spec (Z.of_nat (length rows)) i); [lia|].
  destruct (Z.ltb_spec i 0); [lia | reflexivity].
Qed.

Section Resampling.

Context {rng_impl : NumpyRandom}.

Lemma validate_rng_seed_int (seed os : Z) :
  (0 <= seed)%Z -> validate_rng_seed (PyInt seed) os = Ok (seed, seeded seed).
Proof.
  intros H. unfold validate_rng_seed. cbn [bind].
  rewrite validate_int_ok by assumption. cbn [bind].
  rewrite default_rng_int by assumption. reflexivity.
Qed.

Lemma validate_rng_seed_negative (seed os : Z) :
  (seed < 0)%Z ->
  validate_rng_seed (PyInt seed) os = Raise (ValueError (must_be_ge "seed" 0 seed)).
Proof.
  intros H. unfold validate_rng_seed. cbn [bind].
  rewrite validate_int_low by assumption. reflexivity.
Qed.

Lemma fresh_seed_range (os : Z) : (0 <= fresh_seed os < 2 ^ 31 - 1)%Z.
Proof. unfold fresh_seed. apply integers_range. lia. Qed.

Lemma validate_rng_seed_none (os : Z) :
  validate_rng_seed PyNone os = Ok (fresh_seed os, seeded (fresh_seed os)).
Proof.
  unfold validate_rng_seed. rewrite default_rng_none. cbn [bind].
  fold (fresh_seed os). pose proof (fresh_seed_range os).
  rewrite validate_int_ok by lia. cbn [bind].
  rewrite default_rng_int by lia. reflexivity.
Qed.

Lemma drawn_length (seed B : Z) (n : nat) : length (drawn seed B n) = Z.to_nat B.
Proof. apply integers_2d_shape. Qed.

Lemma drawn_rows (seed B : Z) (n : nat) (idx : list Z) :
  (0 < n)%nat -> In idx (drawn seed B n) ->
  length idx = n /\ Forall (fun i => (0 <= i < Z.of_nat n)%Z) idx.
Proof.
  intros Hn Hin. split.
  - pose proof (proj2 (integers_2d_shape (seeded seed) 0 (Z.of_nat n) (Z.to_nat B) n)) as H.
    rewrite Forall_forall in H. now apply H.
  - assert (Hlt : (0 < Z.of_nat n)%Z) by lia.
    pose proof (integers_2d_range (seeded seed) 0 (Z.of_nat n) (Z.to_nat B) n Hlt) as H.
    rewrite Forall_forall in H. now apply H.
Qed.

Lemma take_rows_dataset (pts : list (R * R)) (idx : list Z) :
  Forall (fun i => (0 <= i < Z.of_nat (length pts))%Z) idx ->
  mapM (take_row (rows_of (dataset pts))) idx =
  Ok (rows_of (dataset (pick pts idx))).
Proof.
  intros Hidx. cbn [rows_of dataset]. unfold pick. rewrite map_map.
  apply mapM_ok. intros i Hi. rewrite Forall_forall in Hidx.
  specialize (Hidx i Hi).
  rewrite take_row_in_range by (rewrite length_map; exact Hidx).
  f_equal.
  apply (nth_map_in (fun p => [Fin (fst p); Fin (snd p)]) pts [] (0, 0)). lia.
Qed.

(** What [bootstrap_samples] returns on a valid Dataset. *)
Lemma bootstrap_samples_dataset (pts : list (R * R)) (B seed os : Z) :
  (2 <= length pts)%nat -> (1 <= B)%Z -> (0 <= seed)%Z ->
  bootstrap_samples (dataset pts) (PyInt B) (PyInt seed) os =
  Ok (Nd3 (length pts) 2
          (map (fun idx => rows_of (dataset (pick pts idx)))
               (drawn seed B (length pts)))).
Proof.
  intros Hlen HB Hseed. unfold bootstrap_samples.
  rewrite validate_dataset by assumption. cbn [bind].
  rewrite validate_int_ok by assumption. cbn [bind].
  rewrite validate_rng_seed_int by assumption. cbn [bind snd].
  replace (nth 0 (shape (dataset pts)) 0%nat) with (length pts)
    by (cbn [dataset shape nth]; now rewrite length_map).
  fold (drawn seed B (length pts)).
  rewrite (mapM_ok _ (fun idx => rows_of (dataset (pick pts idx)))); [reflexivity|].
  intros idx Hin. apply take_rows_dataset.
  apply (drawn_rows seed B (length pts) idx); [lia | exact Hin].
Qed.


End Resampling.

Section ResampleBatch.

Context {rng_impl : NumpyRandom}.

(** C5.  On a valid Dataset of N rows, with B >= 1 and a non-negative seed,
    [bootstrap_samples] returns a batch of shape (B, N, 2), and every row of
    every resampled Dataset is a row of the source Dataset. *)
Theorem resample_shape_and_rows (d : ndarray) (B seed os : Z) :
  valid_dataset d -> (1 <= B)%Z -> (0 <= seed)%Z ->
  exists samples,
    bootstrap_samples d (PyInt B) (PyInt seed) os = Ok samples /\
    shape samples = [Z.to_nat B; nth 0 (shape d) 0%nat; 2%nat] /\
    well_shaped samples /\
    forall sample row,
      In sample (iter_first_axis samples) -> In row (rows_of sample) ->
      In row (rows_of d).
Proof.
  intros Hd HB Hseed.
  apply valid_dataset_points in Hd. destruct Hd as [pts [-> Hlen]].
  eexists. split; [now apply bootstrap_samples_dataset|].
  assert (Hn : nth 0 (shape (dataset pts)) 0%nat = length pts).
  { cbn [dataset shape nth]. now rewrite length_map. }
  rewrite Hn. split; [|split].
  - cbn [shape]. now rewrite length_map, drawn_length.
  - cbn [well_shaped]. apply Forall_forall. intros b Hb.
    apply in_map_iff in Hb. destruct Hb as [idx [<- Hidx]].
    destruct (drawn_rows seed B (length pts) idx) as [Hl _]; [lia | exact Hidx |].
    split.
    + cbn [rows_of dataset]. unfold pick. now rewrite !length_map.
    + apply (well_shaped_dataset (pick pts idx)).
  - intros sample row Hs Hrow. cbn [iter_first_axis] in Hs.
    rewrite map_map in Hs. apply in_map_iff in Hs.
    destruct Hs as [idx [<- Hidx]].
    destruct (drawn_rows seed B (length pts) idx) as [_ Hr]; [lia | exact Hidx |].
    cbn [rows_of dataset] in *. unfold pick in Hrow. rewrite map_map in Hrow.
    apply in_map_iff in Hrow. destruct Hrow as [i [<- Hi]].
    rewrite Forall_forall in Hr. specialize (Hr i Hi).
    apply (in_map (fun p => [Fin (fst p); Fin (snd p)])).
    apply nth_In. lia.
Qed.

End ResampleBatch.

Lemma resample_shape_and_rows_witness :
  exists samples,
    @bootstrap_samples reference_rng (dataset [(0, 0); (1, 1)]) (PyInt 1) (PyInt 0) 0
      = Ok samples /\
    shape samples = [Z.to_nat 1; nth 0 (shape (dataset [(0, 0); (1, 1)])) 0%nat; 2%nat] /\
    well_shaped samples /\
    forall sample row,
      In sample (iter_first_axis samples) -> In row (rows_of sample) ->
      In row (rows_of (dataset [(0, 0); (1, 1)])).
Proof.
  apply (@resample_shape_and_rows reference_rng (dataset [(0, 0); (1, 1)]) 1 0 0).
  - apply valid_dataset_of_points. simpl. lia.
  - lia.
  - lia.
Defined.

(** ** The worker pool *)

Lemma mapM_map {A B C : Type} (f : B -> result C) (g : A -> B) (l : list A) :
  mapM f (map g l) = mapM (fun x => f (g x)) l.
Proof. induction l as [|x l IH]; [reflexivity|]. cbn [map mapM]. now rewrite IH. Qed.

Lemma mapM_ext_in {A B : Type} (f g : A -> result B) (l : list A) :
  (forall x, In x l -> f x = g x) -> mapM f l = mapM g l.
Proof.
  induction l as [|x l IH]; intros H; [reflexivity|].
  cbn [mapM]. rewrite (H x (or_introl eq_refl)).
  rewrite IH by (intros y Hy; apply H; now right). reflexivity.
Qed.

Lemma mapM_nth_error {B : Type} (ys : list B) (e : exn) :
  mapM (fun i => match nth_error ys i with
                 | Some y => Ok y
                 | None => Raise e
                 end) (seq 0 (length ys)) = Ok ys.
Proof.
  induction ys as [|y ys IH]; [reflexivity|].
  cbn [length seq mapM nth_error bind].
  rewrite <- seq_shift, mapM_map. cbn [nth_error]. now rewrite IH.
Qed.

Lemma Forall2_nth_error {A B : Type} (P : A -> B -> Prop) (xs : list A) (ys : list B) :
  Forall2 P xs ys ->
  forall i x, nth_error xs i = Some x ->
  exists y, nth_error ys i = Some y /\ P x y.
Proof.
  induction 1 as [|x0 y0 xs ys H0 _ IH]; intros i x Hi.
  - destruct i; discriminate.
  - destruct i as [|i]; cbn [nth_error] in *.
    + injection Hi as <-. now exists y0.
    + now apply IH.
Qed.

Section Pool.

Context {A B : Type} (f : A -> result B).

Let task (xs : list A) (i : nat) : result (nat * B) :=
  match nth_error xs i with
  | Some x => y <- f x ;; Ok (i, y)
  | None => Raise IndexError
  end.

Lemma tasks_done (xs : list A) (ys : list B) (sched : list nat) :
  Forall2 (fun x y => f x = Ok y) xs ys ->
  (forall i, In i sched -> (i < length xs)%nat) ->
  exists done, mapM (task xs) sched = Ok done /\
               forall i, In i sched -> result_at i done = nth_error ys i.
Proof.
  intros Hxy. induction sched as [|i sched IH]; intros Hin.
  - exists []. split; [reflexivity | intros i []].
  - destruct IH as [done [Hdone Hat]].
    { intros j Hj. apply Hin. now right. }
    assert (Hi : (i < length xs)%nat) by (apply Hin; now left).
    destruct (nth_error xs i) as [x|] eqn:Hx;
      [|apply nth_error_None in Hx; lia].
    destruct (Forall2_nth_error _ xs ys Hxy i x Hx) as [y [Hy Hfx]].
    exists ((i, y) :: done). split.
    + cbn [mapM]. unfold task at 1. rewrite Hx, Hfx. cbn [bind].
      rewrite Hdone. reflexivity.
    + intros j Hj. cbn [result_at].
      destruct (Nat.eqb_spec j i) as [->|Hne]; [now rewrite Hy|].
      destruct Hj as [->|Hj]; [congruence | now apply Hat].
Qed.

(** When every task succeeds, the pool returns the results in task order,
    whatever the order in which the workers finish. *)
Lemma Parallel_ok (n_jobs : Z) (sched : list nat) (xs : list A) (ys : list B) :
  Permutation sched (seq 0 (length xs)) ->
  mapM f xs = Ok ys ->
  Parallel n_jobs sched f xs = Ok ys.
Proof.
  intros Hperm Hseq. apply mapM_ok_inv in Hseq.
  assert (Hlen : length xs = length ys) by (eapply Forall2_length; eassumption).
  destruct (tasks_done xs ys sched Hseq) as [done [Hdone Hat]].
  { intros i Hi. apply (Permutation_in _ Hperm) in Hi. apply in_seq in Hi. lia. }
  unfold Parallel. fold (task xs). rewrite Hdone. cbn [bind].
  rewrite (mapM_ext_in _ (fun i => match nth_error ys i with
                                   | Some y => Ok y
                                   | None => Raise IndexError
                                   end)).
  - rewrite Hlen. apply mapM_nth_error.
  - intros i Hi. rewrite Hat; [reflexivity|].
    apply (Permutation_in _ (Permutation_sym Hperm)). exact Hi.
Qed.

(** When some task raises, the pool raises the exception of one of them. *)
Lemma Parallel_raise (n_jobs : Z) (sched : list nat) (xs : list A) (e : exn) :
  Permutation sched (seq 0 (length xs)) ->
  mapM f xs = Raise e ->
  exists e' x, In x xs /\ f x = Raise e' /\
               Parallel n_jobs sched f xs = Raise e'.
Proof.
  intros Hperm Hseq. apply mapM_raise_inv in Hseq.
  destruct Hseq as [x [Hin Hx]].
  apply In_nth_error in Hin. destruct Hin as [i Hi].
  assert (Hisched : In i sched).
  { apply (Permutation_in _ (Permutation_sym Hperm)). apply in_seq.
    assert (i < length xs)%nat by (apply nth_error_Some; congruence). lia. }
  assert (Hti : task xs i = Raise e) by (unfold task; now rewrite Hi, Hx).
  destruct (mapM_raise_some (task xs) sched i e Hisched Hti) as [e' He'].
  destruct (mapM_raise_inv _ _ _ He') as [j [Hj Htj]].
  apply (Permutation_in _ Hperm) in Hj. apply in_seq in Hj.
  unfold task in Htj.
  destruct (nth_error xs j) as [xj|] eqn:Hxj;
    [|apply nth_error_None in Hxj; lia].
  exists e', xj. split; [eapply nth_error_In; eassumption|]. split.
  - destruct (f xj); [discriminate | cbn [bind] in Htj; congruence].
  - unfold Parallel. fold (task xs). rewrite He'. reflexivity.
Qed.

End Pool.

(** ** The standard deviation *)

Lemma Rsum_squares_nonneg (m : R) (l : list R) :
  0 <= Rsum (map (fun v => (v - m) * (v - m)) l).
Proof.
  apply Rsum_nonneg, Forall_forall. intros y Hy.
  apply in_map_iff in Hy. destruct Hy as [v [<- _]]. apply Rle_0_sqr.
Qed.

Lemma bessel_variance_nonneg (l : list R) :
  (2 <= length l)%nat ->
  0 <= Rsum (map (fun v => (v - Rsum l / INR (length l)) *
                           (v - Rsum l / INR (length l))) l)
       / INR (length l - 1).
Proof.
  intros Hlen.
  assert (Hpos : 0 < INR (length l - 1)) by (apply lt_0_INR; lia).
  apply Rmult_le_pos; [apply Rsum_squares_nonneg|].
  left. now apply Rinv_0_lt_compat.
Qed.

Lemma fdiv_Fin (a b : R) : b <> 0 -> fdiv (Fin a) (Fin b) = Fin (a / b).
Proof.
  intros Hb. unfold fdiv, Rzerob.
  destruct (Req_EM_T b 0); [contradiction | reflexivity].
Qed.

(** On finite values [sample_std] is the Bessel-corrected deviation. *)
Lemma sample_std_Fin (l : list R) :
  (2 <= length l)%nat ->
  sample_std (Nd1 (map Fin l)) = Ok (Fin (bessel_sd l)).
Proof.
  intros Hlen. unfold sample_std.
  cbn [ndim shape length Nat.eqb negb]. rewrite length_map.
  destruct (Nat.ltb_spec (length l) 2); [lia|].
  rewrite fsum_Fin. unfold float_of_nat.
  assert (Hn : INR (length l) <> 0) by (apply not_0_INR; lia).
  assert (Hn1 : INR (length l - 1) <> 0) by (apply not_0_INR; lia).
  rewrite (fdiv_Fin (Rsum l)) by exact Hn.
  rewrite map_map. cbn [fsub fneg fadd fmul].
  rewrite <- (map_map (fun v => (v + - (Rsum l / INR (length l))) *
                                (v + - (Rsum l / INR (length l)))) Fin).
  rewrite fsum_Fin, fdiv_Fin by exact Hn1.
  unfold fsqrt, Rnegb.
  pose proof (bessel_variance_nonneg l Hlen) as Hv.
  match goal with |- context [Rlt_dec ?v 0] => destruct (Rlt_dec v 0) as [Hneg|_] end.
  - exfalso. unfold Rminus in Hv. lra.
  - reflexivity.
Qed.

(** ** The bootstrap *)

Lemma pick_length (pts : list (R * R)) (idx : list Z) :
  length (pick pts idx) = length idx.
Proof. unfold pick. apply length_map. Qed.


Section Bootstrap.

Context {rng_impl : NumpyRandom}.

Lemma resamples_length (pts : list (R * R)) (seed B : Z) :
  length (resamples pts seed B) = Z.to_nat B.
Proof. unfold resamples. now rewrite length_map, drawn_length. Qed.

Lemma resample_fit (pts : list (R * R)) (seed B : Z) (x : ndarray) :
  (2 <= length pts)%nat -> In x (resamples pts seed B) ->
  exists pts', x = dataset pts' /\ length pts' = length pts /\
    estimate_beta x =
    if Req_EM_T (gram_det pts') 0 then Raise LinAlgError
    else Ok [Fin (fst (ols pts')); Fin (snd (ols pts'))].
Proof.
  intros Hlen Hin. unfold resamples in Hin. apply in_map_iff in Hin.
  destruct Hin as [idx [<- Hidx]].
  destruct (drawn_rows seed B (length pts) idx) as [Hl _]; [lia | exact Hidx |].
  exists (pick pts idx). split; [reflexivity|].
  assert (Hp : length (pick pts idx) = length pts) by now rewrite pick_length.
  split; [exact Hp|]. apply estimate_beta_dataset. lia.
Qed.

Lemma resample_fit_error (pts : list (R * R)) (seed B : Z) (x : ndarray) (e : exn) :
  (2 <= length pts)%nat -> In x (resamples pts seed B) ->
  estimate_beta x = Raise e -> e = LinAlgError.
Proof.
  intros Hlen Hin He.
  destruct (resample_fit pts seed B x Hlen Hin) as [pts' [_ [_ Hfit]]].
  rewrite Hfit in He. destruct (Req_EM_T (gram_det pts') 0); congruence.
Qed.


(** [bootstrap_beta] past its validation: the refits and the reduction. *)
Lemma bootstrap_beta_dataset (pts : list (R * R)) (B n_jobs seed os : Z)
    (parallel : bool) (sched : list nat) :
  (2 <= length pts)%nat -> (2 <= B)%Z -> (1 <= n_jobs)%Z -> (0 <= seed)%Z ->
  bootstrap_beta (dataset pts) (PyInt B) (PyBool parallel) (PyInt n_jobs)
                 (PyInt seed) os sched =
  (betas <- (if negb parallel
             then mapM estimate_beta (resamples pts seed B)
             else Parallel n_jobs sched estimate_beta (resamples pts seed B)) ;;
   sample_std (Nd1 (column 1 betas))).
Proof.
  intros Hlen HB Hj Hseed. unfold bootstrap_beta.
  rewrite validate_dataset by assumption. cbn [bind].
  rewrite !validate_int_ok by assumption. cbn [bind].
  rewrite validate_rng_seed_int by assumption. cbn [bind fst].
  rewrite bootstrap_samples_dataset by (assumption || lia). cbn [bind].
  cbn [iter_first_axis]. rewrite map_map. reflexivity.
Qed.

End Bootstrap.

Section Orchestrator.

Context {rng_impl : NumpyRandom}.

Lemma refits_raise_LinAlgError (pts : list (R * R)) (seed B : Z) (e : exn) :
  (2 <= length pts)%nat ->
  mapM estimate_beta (resamples pts seed B) = Raise e -> e = LinAlgError.
Proof.
  intros Hlen H. apply mapM_raise_inv in H. destruct H as [x [Hin Hx]].
  eapply resample_fit_error; eassumption.
Qed.

(** The pool and the loop give the same refits. *)
Lemma refits_parallel (pts : list (R * R)) (seed B n_jobs : Z) (sched : list nat) :
  (2 <= length pts)%nat ->
  Permutation sched (seq 0 (Z.to_nat B)) ->
  Parallel n_jobs sched estimate_beta (resamples pts seed B) =
  mapM estimate_beta (resamples pts seed B).
Proof.
  intros Hlen Hperm. rewrite <- (resamples_length pts seed B) in Hperm.
  destruct (mapM estimate_beta (resamples pts seed B)) as [betas|e] eqn:Hseq.
  - now apply Parallel_ok.
  - rewrite (refits_raise_LinAlgError pts seed B e Hlen Hseq).
    destruct (Parallel_raise estimate_beta n_jobs sched _ e Hperm Hseq)
      as [e' [x [Hin [Hx ->]]]].
    f_equal. eapply resample_fit_error; eassumption.
Qed.

(** C2.  With parallel execution [bootstrap_beta] returns what it returns
    with sequential execution, whatever the order in which the workers
    finish the refits. *)
Theorem parallel_agrees_with_sequential (d : ndarray) (B n_jobs seed os : Z)
    (sched sched' : list nat) :
  valid_dataset d -> (2 <= B)%Z -> (0 <= seed)%Z -> (1 <= n_jobs)%Z ->
  Permutation sched (seq 0 (Z.to_nat B)) ->
  bootstrap_beta d (PyInt B) (PyBool true) (PyInt n_jobs) (PyInt seed) os sched =
  bootstrap_beta d (PyInt B) (PyBool false) (PyInt n_jobs) (PyInt seed) os sched'.
Proof.
  intros Hd HB Hseed Hj Hperm.
  apply valid_dataset_points in Hd. destruct Hd as [pts [-> Hlen]].
  rewrite !bootstrap_beta_dataset by assumption. cbn [negb].
  now rewrite refits_parallel.
Qed.



End Orchestrator.

Lemma parallel_agrees_with_sequential_witness :
  @bootstrap_beta reference_rng (dataset [(0, 0); (1, 1); (2, 3)])
    (PyInt 2) (PyBool true) (PyInt 2) (PyInt 0) 0 [1; 0]%nat =
  @bootstrap_beta reference_rng (dataset [(0, 0); (1, 1); (2, 3)])
    (PyInt 2) (PyBool false) (PyInt 2) (PyInt 0) 0 [].
Proof.
  apply (@parallel_agrees_with_sequential reference_rng
           (dataset [(0, 0); (1, 1); (2, 3)]) 2 2 0 0 [1; 0]%nat []).
  - apply valid_dataset_of_points. simpl. lia.
  - lia.
  - lia.
  - lia.
  - change (Z.to_nat 2) with 2%nat. simpl. apply perm_swap.
Defined.


(** ** Degenerate Datasets *)



Section Degenerate.

Context {rng_impl : NumpyRandom}.


End Degenerate.


(** ** Sign of the standard deviation *)



Lemma Rsum_all_equal (l : list R) (h : R) :
  Forall (fun v => v = h) l -> Rsum l = INR (length l) * h.
Proof.
  intros H. rewrite <- (map_id l) at 1.
  apply Rsum_map_const. intros x Hx. rewrite Forall_forall in H. now apply H.
Qed.

Lemma bessel_sd_constant (l : list R) (h : R) :
  l <> [] -> Forall (fun v => v = h) l -> bessel_sd l = 0.
Proof.
  intros Hne Hall. unfold bessel_sd.
  rewrite (Rsum_all_equal l h Hall).
  assert (Hn : INR (length l) <> 0).
  { apply not_0_INR. destruct l; [congruence | simpl; lia]. }
  replace (INR (length l) * h / INR (length l)) with h by (field; exact Hn).
  rewrite (Rsum_map_const _ 0).
  - replace (INR (length l) * 0 / INR (length l - 1)) with 0
      by (unfold Rdiv; ring).
    apply sqrt_0.
  - intros x Hx. rewrite Forall_forall in Hall. rewrite (Hall x Hx). ring.
Qed.


(** ** Datasets on a line *)

Section Collinear.

Context {rng_impl : NumpyRandom}.



End Collinear.

Section Sign.

Context {rng_impl : NumpyRandom}.


End Sign.

(** ** Runs with the reference generator *)

Lemma reference_drawn_two : @drawn reference_rng 0 2 2 = [[0; 1]; [0; 1]]%Z.
Proof. reflexivity. Qed.

Lemma two_point_run :
  @bootstrap_beta reference_rng (dataset [(0, 0); (1, 1)])
    (PyInt 2) (PyBool false) (PyInt 1) (PyInt 0) 0 [] = Ok (Fin 0).
Proof.
  assert (Hfit : estimate_beta (dataset [(0, 0); (1, 1)]) = Ok [Fin 0; Fin 1]).
  { apply (estimate_beta_line 0 1).
    - simpl. lia.
    - intros p Hp. simpl in Hp. destruct Hp as [<-|[<-|[]]]; simpl; lra.
    - intros Hall.
      pose proof (Hall (0, 0) (1, 1) (or_introl eq_refl)
                       (or_intror (or_introl eq_refl))) as H.
      simpl in H. lra. }
  rewrite bootstrap_beta_dataset by (simpl; lia). cbn [negb].
  unfold resamples.
  change (length [(0, 0); (1, 1)]) with 2%nat.
  rewrite reference_drawn_two.
  cbn [map mapM].
  change (pick [(0, 0); (1, 1)] [0; 1]%Z) with [(0, 0); (1, 1)].
  rewrite Hfit. cbn [bind column map nth].
  change [Fin 1; Fin 1] with (map Fin [1; 1]).
  rewrite (sample_std_Fin [1; 1]) by (simpl; lia).
  f_equal. f_equal. apply (bessel_sd_constant _ 1); [discriminate|].
  repeat constructor.
Qed.



(** ** Rejected inputs *)

Lemma estimate_beta_one_row (d : ndarray) :
  shape d = [1%nat; 2%nat] ->
  estimate_beta d = Raise (ValueError (data_too_few_rows 2 1)).
Proof.
  intros Hs. unfold estimate_beta, validate_xy_data, ndim.
  rewrite Hs. reflexivity.
Qed.

Section Rejected.

Context {rng_impl : NumpyRandom}.

Lemma simulate_data_small_N (N : Z) (beta_0 beta_1 : float)
    (x_sigma epsilon_sigma seed : pyval) (os : Z) :
  (N < 2)%Z ->
  simulate_data (PyInt N) beta_0 beta_1 x_sigma epsilon_sigma seed os =
  Raise (ValueError (must_be_ge "N" 2 N)).
Proof.
  intros HN. unfold simulate_data. now rewrite validate_int_low.
Qed.

Lemma bootstrap_beta_small_B (d : ndarray) (B : Z) (parallel n_jobs seed : pyval)
    (os : Z) (sched : list nat) :
  validate_xy_data d 2 = Ok d -> (B < 2)%Z ->
  bootstrap_beta d (PyInt B) parallel n_jobs seed os sched =
  Raise (ValueError (must_be_ge "B" 2 B)).
Proof.
  intros Hd HB. unfold bootstrap_beta. rewrite Hd. cbn [bind].
  now rewrite validate_int_low.
Qed.

Lemma bootstrap_beta_negative_seed (d : ndarray) (B n_jobs z os : Z)
    (parallel : bool) (sched : list nat) :
  validate_xy_data d 2 = Ok d -> (2 <= B)%Z -> (1 <= n_jobs)%Z -> (z < 0)%Z ->
  bootstrap_beta d (PyInt B) (PyBool parallel) (PyInt n_jobs) (PyInt z) os sched =
  Raise (ValueError (must_be_ge "seed" 0 z)).
Proof.
  intros Hd HB Hj Hz. unfold bootstrap_beta. rewrite Hd. cbn [bind].
  rewrite !validate_int_ok by assumption. cbn [bind].
  now rewrite validate_rng_seed_negative.
Qed.

Lemma bootstrap_samples_negative_seed (d : ndarray) (B z os : Z) :
  validate_xy_data d 2 = Ok d -> (1 <= B)%Z -> (z < 0)%Z ->
  bootstrap_samples d (PyInt B) (PyInt z) os =
  Raise (ValueError (must_be_ge "seed" 0 z)).
Proof.
  intros Hd HB Hz. unfold bootstrap_samples. rewrite Hd. cbn [bind].
  rewrite validate_int_ok by assumption. cbn [bind].
  now rewrite validate_rng_seed_negative.
Qed.

Lemma simulate_data_negative_seed (N z os : Z) (beta_0 beta_1 sx se : float)
    (x_sigma epsilon_sigma : pyval) :
  (2 <= N)%Z ->
  validate_positive "x_sigma" x_sigma = Ok sx ->
  validate_positive "epsilon_sigma" epsilon_sigma = Ok se ->
  (z < 0)%Z ->
  simulate_data (PyInt N) beta_0 beta_1 x_sigma epsilon_sigma (PyInt z) os =
  Raise (ValueError (seed_negative z)).
Proof.
  intros HN Hx He Hz. unfold simulate_data.
  rewrite validate_int_ok by assumption. cbn [bind].
  rewrite Hx, He. cbn [bind].
  now rewrite default_rng_negative.
Qed.

(** C8.  Invalid inputs are rejected by the validation that opens each
    operation, with an exception of the matching kind: a Dataset of one row
    for [estimate_beta] (Shape), N = 1 for [simulate_data] (Range), B = 1 for
    [bootstrap_beta] (Range), a negative seed for the three operations that
    take one (Range).  What is raised depends on no draw of the generator. *)
Theorem invalid_inputs_rejected (d one_row : ndarray) (B N n_jobs z os : Z)
    (beta_0 beta_1 sx se : float) (x_sigma epsilon_sigma parallel seed : pyval)
    (par : bool) (sched : list nat) :
  valid_dataset d -> shape one_row = [1%nat; 2%nat] ->
  (2 <= B)%Z -> (2 <= N)%Z -> (1 <= n_jobs)%Z -> (z < 0)%Z ->
  validate_positive "x_sigma" x_sigma = Ok sx ->
  validate_positive "epsilon_sigma" epsilon_sigma = Ok se ->
  (exists e, estimate_beta one_row = Raise e /\ kind_of e = ShapeKind) /\
  (exists e, simulate_data (PyInt 1) beta_0 beta_1 x_sigma epsilon_sigma seed os
             = Raise e /\ kind_of e = RangeKind) /\
  (exists e, bootstrap_beta d (PyInt 1) parallel (PyInt n_jobs) seed os sched
             = Raise e /\ kind_of e = RangeKind) /\
  (exists e, bootstrap_beta d (PyInt B) (PyBool par) (PyInt n_jobs) (PyInt z) os sched
             = Raise e /\ kind_of e = RangeKind) /\
  (exists e, bootstrap_samples d (PyInt B) (PyInt z) os
             = Raise e /\ kind_of e = RangeKind) /\
  (exists e, simulate_data (PyInt N) beta_0 beta_1 x_sigma epsilon_sigma (PyInt z) os
             = Raise e /\ kind_of e = RangeKind).
Proof.
  intros [_ Hd] Hone HB HN Hj Hz Hx He.
  repeat split.
  - eexists. split; [now apply estimate_beta_one_row | reflexivity].
  - eexists. split; [apply simulate_data_small_N; lia | reflexivity].
  - eexists. split; [apply bootstrap_beta_small_B; [exact Hd | lia] | reflexivity].
  - eexists. split; [now apply bootstrap_beta_negative_seed | reflexivity].
  - eexists. split; [apply bootstrap_samples_negative_seed; [exact Hd | lia | exact Hz] | reflexivity].
  - eexists. split; [eapply simulate_data_negative_seed; eassumption | reflexivity].
Qed.

End Rejected.

Lemma validate_positive_Fin (name : string) (r : R) :
  0 < r -> validate_positive name (PyFloat (Fin r)) = Ok (Fin r).
Proof.
  intros Hr. unfold validate_positive, validate_real. cbn [isfinite negb andb bind fleb].
  unfold Rleb. destruct (Rle_dec r 0); [lra | reflexivity].
Qed.

Lemma invalid_inputs_rejected_witness :
  (exists e, estimate_beta (dataset [(0, 0)]) = Raise e /\ kind_of e = ShapeKind) /\
  (exists e, @simulate_data reference_rng (PyInt 1) (Fin 1) (Fin 2)
               (PyFloat (Fin 1)) (PyFloat (Fin 1)) (PyInt 0) 0
             = Raise e /\ kind_of e = RangeKind) /\
  (exists e, @bootstrap_beta reference_rng (dataset [(0, 0); (1, 1)]) (PyInt 1)
               (PyBool false) (PyInt 1) (PyInt 0) 0 []
             = Raise e /\ kind_of e = RangeKind) /\
  (exists e, @bootstrap_beta reference_rng (dataset [(0, 0); (1, 1)]) (PyInt 2)
               (PyBool false) (PyInt 1) (PyInt (-1)) 0 []
             = Raise e /\ kind_of e = RangeKind) /\
  (exists e, @bootstrap_samples reference_rng (dataset [(0, 0); (1, 1)]) (PyInt 2)
               (PyInt (-1)) 0
             = Raise e /\ kind_of e = RangeKind) /\
  (exists e, @simulate_data reference_rng (PyInt 2) (Fin 1) (Fin 2)
               (PyFloat (Fin 1)) (PyFloat (Fin 1)) (PyInt (-1)) 0
             = Raise e /\ kind_of e = RangeKind).
Proof.
  apply (@invalid_inputs_rejected reference_rng
           (dataset [(0, 0); (1, 1)]) (dataset [(0, 0)]) 2 2 1 (-1) 0
           (Fin 1) (Fin 2) (Fin 1) (Fin 1)
           (PyFloat (Fin 1)) (PyFloat (Fin 1)) (PyBool false) (PyInt 0)
           false []).
  - apply valid_dataset_of_points. simpl. lia.
  - reflexivity.
  - lia.
  - lia.
  - lia.
  - lia.
  - apply validate_positive_Fin. lra.
  - apply validate_positive_Fin. lra.
Defined.

(** ** Non-finite coefficients in the simulator *)

Lemma fadd_nonfinite_l (x y : float) :
  isfinite x = false -> isfinite (fadd x y) = false.
Proof. destruct x, y; simpl; congruence. Qed.

Lemma fadd_nonfinite_r (x y : float) :
  isfinite y = false -> isfinite (fadd x y) = false.
Proof. destruct x, y; simpl; congruence. Qed.

Lemma fmul_nonfinite_l (x y : float) :
  isfinite x = false -> isfinite (fmul x y) = false.
Proof.
  destruct x, y; simpl; try congruence; intros _;
    destruct (Rzerob r); try reflexivity; destruct (Rnegb r); reflexivity.
Qed.

Lemma simulated_y_nonfinite (beta_0 beta_1 x e : float) :
  isfinite beta_0 = false \/ isfinite beta_1 = false ->
  isfinite (fadd (fadd beta_0 (fmul beta_1 x)) e) = false.
Proof.
  intros [H0|H1]; apply fadd_nonfinite_l.
  - now apply fadd_nonfinite_l.
  - apply fadd_nonfinite_r. now apply fmul_nonfinite_l.
Qed.

Lemma column_stack_length (a b : list float) :
  length a = length b -> length (column_stack a b) = length a.
Proof.
  intros H. unfold column_stack. rewrite length_map, length_combine. lia.
Qed.

Lemma column_stack_rows (a b : list float) (row : list float) :
  In row (column_stack a b) -> exists x y, row = [x; y] /\ In x a /\ In y b.
Proof.
  unfold column_stack. intros H. apply in_map_iff in H.
  destruct H as [[x y] [<- Hin]]. exists x, y. split; [reflexivity|].
  split; [eapply in_combine_l | eapply in_combine_r]; eassumption.
Qed.

Section Simulator.

Context {rng_impl : NumpyRandom}.

Lemma default_rng_valid (seed : pyval) (os : Z) :
  seed = PyNone \/ (exists z, seed = PyInt z /\ (0 <= z)%Z) ->
  exists g, default_rng seed os = Ok g.
Proof.
  intros [->|[z [-> Hz]]].
  - exists (seeded os). apply default_rng_none.
  - exists (seeded z). now apply default_rng_int.
Qed.

(** C10.  [simulate_data] checks N, the two sigmas and, through the
    generator, the seed, and nothing else: with those valid it returns an
    array of shape (N, 2) for every intercept and slope; when the intercept
    or the slope is not finite every y entry is non-finite, so the array
    returned is not a valid Dataset. *)
Theorem simulate_accepts_non_finite (N os : Z) (beta_0 beta_1 sx se : float)
    (x_sigma epsilon_sigma seed : pyval) :
  (2 <= N)%Z ->
  validate_positive "x_sigma" x_sigma = Ok sx ->
  validate_positive "epsilon_sigma" epsilon_sigma = Ok se ->
  seed = PyNone \/ (exists z, seed = PyInt z /\ (0 <= z)%Z) ->
  exists data,
    simulate_data (PyInt N) beta_0 beta_1 x_sigma epsilon_sigma seed os = Ok data /\
    shape data = [Z.to_nat N; 2%nat] /\
    (isfinite beta_0 = false \/ isfinite beta_1 = false ->
     Forall (fun row => isfinite (nth 1 row NaN) = false) (rows_of data) /\
     all_finite data = false /\
     validate_xy_data data 2 = Raise (ValueError data_not_finite)).
Proof.
  intros HN Hx He Hseed.
  destruct (default_rng_valid seed os Hseed) as [g Hg].
  unfold simulate_data.
  rewrite validate_int_ok by assumption. cbn [bind].
  rewrite Hx, He, Hg. cbn [bind].
  pose proof (normal_length g (Fin 0) sx (Z.to_nat N)) as Hlx.
  destruct (normal g (Fin 0) sx (Z.to_nat N)) as [xs g1]. cbn [fst] in Hlx.
  pose proof (normal_length g1 (Fin 0) se (Z.to_nat N)) as Hle.
  destruct (normal g1 (Fin 0) se (Z.to_nat N)) as [epsilons g2]. cbn [fst] in Hle.
  set (ys := map (fun p => fadd (fadd beta_0 (fmul beta_1 (fst p))) (snd p))
                 (combine xs epsilons)).
  assert (Hly : length ys = length xs).
  { unfold ys. rewrite length_map, length_combine. lia. }
  assert (Hrows : length (column_stack xs ys) = Z.to_nat N).
  { rewrite column_stack_length by now symmetry. exact Hlx. }
  eexists. split; [reflexivity|]. split.
  { cbn [shape]. now rewrite Hrows. }
  intros Hnf.
  assert (Hys : Forall (fun row => isfinite (nth 1 row NaN) = false)
                       (column_stack xs ys)).
  { apply Forall_forall. intros row Hrow.
    apply column_stack_rows in Hrow. destruct Hrow as [x [y [-> [_ Hy]]]].
    cbn [nth]. unfold ys in Hy. apply in_map_iff in Hy.
    destruct Hy as [p [<- _]]. now apply simulated_y_nonfinite. }
  assert (Hall : forallb (forallb isfinite) (column_stack xs ys) = false).
  { destruct (column_stack xs ys) as [|row rows] eqn:Hcs.
    - simpl in Hrows. lia.
    - inversion Hys as [|? ? Hrow _]; subst.
      assert (Hin : In row (column_stack xs ys)) by (rewrite Hcs; now left).
      apply column_stack_rows in Hin. destruct Hin as [x [y [-> _]]].
      cbn [nth] in Hrow. cbn [forallb]. rewrite Hrow.
      now rewrite andb_false_r. }
  split; [exact Hys|]. split; [exact Hall|].
  unfold validate_xy_data, ndim. cbn [shape length nth Nat.eqb negb is_numeric all_finite].
  rewrite Hrows, Hall.
  destruct (Nat.ltb_spec (Z.to_nat N) 2); [lia | reflexivity].
Qed.

End Simulator.

Lemma simulate_accepts_non_finite_witness :
  exists data,
    @simulate_data reference_rng (PyInt 2) NaN (Fin 2)
      (PyFloat (Fin 1)) (PyFloat (Fin 1)) (PyInt 17) 0 = Ok data /\
    shape data = [Z.to_nat 2; 2%nat] /\
    (isfinite NaN = false \/ isfinite (Fin 2) = false ->
     Forall (fun row => isfinite (nth 1 row NaN) = false) (rows_of data) /\
     all_finite data = false /\
     validate_xy_data data 2 = Raise (ValueError data_not_finite)).
Proof.
  apply (@simulate_accepts_non_finite reference_rng 2 0 NaN (Fin 2) (Fin 1) (Fin 1)
           (PyFloat (Fin 1)) (PyFloat (Fin 1)) (PyInt 17)).
  - lia.
  - apply validate_positive_Fin. lra.
  - apply validate_positive_Fin. lra.
  - right. exists 17%Z. split; [reflexivity | lia].
Defined.

(** ** An omitted seed *)

Section OmittedSeed.

Context {rng_impl : NumpyRandom}.

Lemma validate_rng_seed_fresh (os : Z) :
  validate_rng_seed PyNone os = validate_rng_seed (PyInt (fresh_seed os)) os.
Proof.
  rewrite validate_rng_seed_none.
  pose proof (fresh_seed_range os).
  now rewrite validate_rng_seed_int by lia.
Qed.

Lemma bootstrap_beta_fresh (d : ndarray) (B parallel n_jobs : pyval) (os : Z)
    (sched : list nat) :
  bootstrap_beta d B parallel n_jobs PyNone os sched =
  bootstrap_beta d B parallel n_jobs (PyInt (fresh_seed os)) os sched.
Proof. unfold bootstrap_beta. now rewrite validate_rng_seed_fresh. Qed.

Lemma bootstrap_samples_fresh (d : ndarray) (B : pyval) (os : Z) :
  bootstrap_samples d B PyNone os =
  bootstrap_samples d B (PyInt (fresh_seed os)) os.
Proof. unfold bootstrap_samples. now rewrite validate_rng_seed_fresh. Qed.

(** C6, amended.  With the seed omitted, [validate_rng_seed] draws a seed in
    [0, 2^31 - 1) and returns it with the generator it seeds;
    [bootstrap_beta] and [bootstrap_samples] then compute what they compute
    when that seed is given, and [simulate_data] what it computes for the
    entropy taken from the operating system.  The seed is returned by
    [validate_rng_seed] only. *)
Theorem omitted_seed_is_drawn_and_used (os : Z) :
  (0 <= os)%Z ->
  validate_rng_seed PyNone os = Ok (fresh_seed os, seeded (fresh_seed os)) /\
  (0 <= fresh_seed os < 2 ^ 31 - 1)%Z /\
  (forall d B parallel n_jobs sched,
     bootstrap_beta d B parallel n_jobs PyNone os sched =
     bootstrap_beta d B parallel n_jobs (PyInt (fresh_seed os)) os sched) /\
  (forall d B,
     bootstrap_samples d B PyNone os =
     bootstrap_samples d B (PyInt (fresh_seed os)) os) /\
  (forall N beta_0 beta_1 x_sigma epsilon_sigma,
     simulate_data N beta_0 beta_1 x_sigma epsilon_sigma PyNone os =
     simulate_data N beta_0 beta_1 x_sigma epsilon_sigma (PyInt os) os).
Proof.
  intros Hos.
  split; [apply validate_rng_seed_none|].
  split; [apply fresh_seed_range|].
  split; [intros; apply bootstrap_beta_fresh|].
  split; [intros; apply bootstrap_samples_fresh|].
  intros N beta_0 beta_1 x_sigma epsilon_sigma. unfold simulate_data.
  now rewrite default_rng_none, default_rng_int by assumption.
Qed.

End OmittedSeed.

Lemma omitted_seed_is_drawn_and_used_witness :
  @validate_rng_seed reference_rng PyNone 0 =
    Ok (@fresh_seed reference_rng 0, @seeded reference_rng (@fresh_seed reference_rng 0)) /\
  (0 <= @fresh_seed reference_rng 0 < 2 ^ 31 - 1)%Z /\
  (forall d B parallel n_jobs sched,
     @bootstrap_beta reference_rng d B parallel n_jobs PyNone 0 sched =
     @bootstrap_beta reference_rng d B parallel n_jobs
       (PyInt (@fresh_seed reference_rng 0)) 0 sched) /\
  (forall d B,
     @bootstrap_samples reference_rng d B PyNone 0 =
     @bootstrap_samples reference_rng d B (PyInt (@fresh_seed reference_rng 0)) 0) /\
  (forall N beta_0 beta_1 x_sigma epsilon_sigma,
     @simulate_data reference_rng N beta_0 beta_1 x_sigma epsilon_sigma PyNone 0 =
     @simulate_data reference_rng N beta_0 beta_1 x_sigma epsilon_sigma (PyInt 0) 0).
Proof.
  apply (@omitted_seed_is_drawn_and_used reference_rng 0). lia.
Defined.

Lemma reference_drawn_two_seed_1 : @drawn reference_rng 1 2 2 = [[1; 0]; [1; 0]]%Z.
Proof. reflexivity. Qed.

Lemma two_point_run_seed_1 :
  @bootstrap_beta reference_rng (dataset [(0, 0); (1, 1)])
    (PyInt 2) (PyBool false) (PyInt 1) (PyInt 1) 1 [] = Ok (Fin 0).
Proof.
  assert (Hfit : estimate_beta (dataset [(1, 1); (0, 0)]) = Ok [Fin 0; Fin 1]).
  { apply (estimate_beta_line 0 1).
    - simpl. lia.
    - intros p Hp. simpl in Hp. destruct Hp as [<-|[<-|[]]]; simpl; lra.
    - intros Hall.
      pose proof (Hall (1, 1) (0, 0) (or_introl eq_refl)
                       (or_intror (or_introl eq_refl))) as H.
      simpl in H. lra. }
  rewrite bootstrap_beta_dataset by (simpl; lia). cbn [negb].
  unfold resamples.
  change (length [(0, 0); (1, 1)]) with 2%nat.
  rewrite reference_drawn_two_seed_1.
  cbn [map mapM].
  change (pick [(0, 0); (1, 1)] [1; 0]%Z) with [(1, 1); (0, 0)].
  rewrite Hfit. cbn [bind column map nth].
  change [Fin 1; Fin 1] with (map Fin [1; 1]).
  rewrite (sample_std_Fin [1; 1]) by (simpl; lia).
  f_equal. f_equal. apply (bessel_sd_constant _ 1); [discriminate|].
  repeat constructor.
Qed.

(** C6, as stated, fails: [bootstrap_beta] returns the statistic alone.  Two
    runs without a seed that draw the seeds 0 and 1 return the same value,
    so nothing the caller receives tells which seed was used. *)
Lemma seed_not_reported_counterexample :
  ~ exists report : result float -> Z,
      forall os, (0 <= os)%Z ->
        report (@bootstrap_beta reference_rng (dataset [(0, 0); (1, 1)])
                  (PyInt 2) (PyBool false) (PyInt 1) PyNone os []) =
        @fresh_seed reference_rng os.
Proof.
  intros [report Hreport].
  pose proof (Hreport 0%Z ltac:(lia)) as H0.
  pose proof (Hreport 1%Z ltac:(lia)) as H1.
  rewrite (@bootstrap_beta_fresh reference_rng) in H0, H1.
  change (@fresh_seed reference_rng 0) with 0%Z in H0.
  change (@fresh_seed reference_rng 1) with 1%Z in H1.
  assert (Hsame :
    @bootstrap_beta reference_rng (dataset [(0, 0); (1, 1)])
      (PyInt 2) (PyBool false) (PyInt 1) (PyInt 1) 1 [] =
    @bootstrap_beta reference_rng (dataset [(0, 0); (1, 1)])
      (PyInt 2) (PyBool false) (PyInt 1) (PyInt 0) 0 []).
  { now rewrite two_point_run, two_point_run_seed_1. }
  rewrite Hsame in H1. rewrite H0 in H1. discriminate.
Qed.

(** ** What a call leaves untouched *)

Lemma extends_refl (h : heap) : extends h h.
Proof. exists []. now rewrite app_nil_r. Qed.

Lemma extends_trans (h1 h2 h3 : heap) :
  extends h1 h2 -> extends h2 h3 -> extends h1 h3.
Proof.
  intros [e1 ->] [e2 ->]. exists (e1 ++ e2). now rewrite app_assoc.
Qed.

Lemma extends_lookup (h h' : heap) (r : ref) (a : ndarray) :
  extends h h' -> nth_error h r = Some a -> nth_error h' r = Some a.
Proof.
  intros [ext ->] Hr. rewrite nth_error_app1; [exact Hr|].
  apply nth_error_Some. congruence.
Qed.

Lemma ret_allocates_only {A : Type} (a : A) : allocates_only (ret a).
Proof. intros h. apply extends_refl. Qed.

Lemma lift_allocates_only {A : Type} (r : result A) : allocates_only (lift r).
Proof. intros h. apply extends_refl. Qed.

Lemma get_allocates_only (r : ref) : allocates_only (get r).
Proof.
  intros h. unfold get. destruct (nth_error h r); apply extends_refl.
Qed.

Lemma new_allocates_only (a : ndarray) : allocates_only (new a).
Proof. intros h. now exists [a]. Qed.

Lemma bindST_allocates_only {A B : Type} (m : ST A) (k : A -> ST B) :
  allocates_only m -> (forall a, allocates_only (k a)) ->
  allocates_only (bindST m k).
Proof.
  intros Hm Hk h. unfold bindST. specialize (Hm h).
  destruct (m h) as [[a|e] h1]; cbn [snd] in Hm.
  - eapply extends_trans; [exact Hm | apply Hk].
  - exact Hm.
Qed.

(** The in-place write is what the frame property excludes. *)
Lemma put_overwrites (a b : ndarray) : snd (put 0%nat b [a]) = [b].
Proof. reflexivity. Qed.

Ltac allocates :=
  repeat first
    [ apply bindST_allocates_only; [|intros ?]
    | apply ret_allocates_only
    | apply lift_allocates_only
    | apply get_allocates_only
    | apply new_allocates_only ].

Lemma validate_xy_data_obj_allocates_only (data : ref) (min_rows : nat) :
  allocates_only (validate_xy_data_obj data min_rows).
Proof. unfold validate_xy_data_obj. allocates. Qed.

Lemma estimate_beta_obj_allocates_only (data : ref) :
  allocates_only (estimate_beta_obj data).
Proof.
  unfold estimate_beta_obj.
  apply bindST_allocates_only; [apply validate_xy_data_obj_allocates_only|].
  intros ?. allocates.
Qed.

Section Frame.

Context {rng_impl : NumpyRandom}.

Lemma bootstrap_samples_obj_allocates_only (data : ref) (B seed : pyval) (os : Z) :
  allocates_only (bootstrap_samples_obj data B seed os).
Proof.
  unfold bootstrap_samples_obj.
  apply bindST_allocates_only; [apply validate_xy_data_obj_allocates_only|].
  intros ?. allocates.
Qed.

(** C9.  [estimate_beta] and [bootstrap_samples] leave the Dataset they are
    given as it was: after the call, whether it returned or raised, the
    array under the reference passed in is the array that was there before,
    as is every other array that was alive. *)
Theorem dataset_left_unchanged (h : heap) (data : ref) (d : ndarray)
    (B seed : pyval) (os : Z) :
  nth_error h data = Some d ->
  nth_error (snd (estimate_beta_obj data h)) data = Some d /\
  nth_error (snd (bootstrap_samples_obj data B seed os h)) data = Some d /\
  extends h (snd (estimate_beta_obj data h)) /\
  extends h (snd (bootstrap_samples_obj data B seed os h)).
Proof.
  intros Hd.
  pose proof (estimate_beta_obj_allocates_only data h) as He.
  pose proof (bootstrap_samples_obj_allocates_only data B seed os h) as Hb.
  repeat split; try assumption; eapply extends_lookup; eassumption.
Qed.

End Frame.

Lemma dataset_left_unchanged_witness :
  nth_error (snd (estimate_beta_obj 0%nat [dataset [(0, 1); (1, 3)]])) 0%nat =
    Some (dataset [(0, 1); (1, 3)]) /\
  nth_error (snd (@bootstrap_samples_obj reference_rng 0%nat (PyInt 2) (PyInt 0) 0%Z
                    [dataset [(0, 1); (1, 3)]])) 0%nat =
    Some (dataset [(0, 1); (1, 3)]) /\
  extends [dataset [(0, 1); (1, 3)]]
          (snd (estimate_beta_obj 0%nat [dataset [(0, 1); (1, 3)]])) /\
  extends [dataset [(0, 1); (1, 3)]]
          (snd (@bootstrap_samples_obj reference_rng 0%nat (PyInt 2) (PyInt 0) 0%Z
                  [dataset [(0, 1); (1, 3)]])).
Proof.
  apply (@dataset_left_unchanged reference_rng [dataset [(0, 1); (1, 3)]] 0%nat
           (dataset [(0, 1); (1, 3)]) (PyInt 2) (PyInt 0) 0).
  reflexivity.
Defined.

(** ** The object-level functions compute what the functions on values do *)

Lemma get_new (h : heap) (a : ndarray) :
  get (length h) (h ++ [a]) = (Ok a, h ++ [a]).
Proof.
  unfold get. rewrite nth_error_app2 by lia.
  now rewrite Nat.sub_diag.
Qed.

Lemma get_alive (h : heap) (r : ref) (a : ndarray) :
  nth_error h r = Some a -> get r h = (Ok a, h).
Proof. intros H. unfold get. now rewrite H. Qed.

Lemma bindST_ok {A B : Type} (m : ST A) (k : A -> ST B) (h h' : heap) (a : A) :
  m h = (Ok a, h') -> bindST m k h = k a h'.
Proof. intros H. unfold bindST. now rewrite H. Qed.

Lemma bindST_raise {A B : Type} (m : ST A) (k : A -> ST B) (h h' : heap) (e : exn) :
  m h = (Raise e, h') -> bindST m k h = (Raise e, h').
Proof. intros H. unfold bindST. now rewrite H. Qed.

Lemma validate_xy_data_obj_run (h : heap) (data : ref) (d : ndarray) (min_rows : nat) :
  nth_error h data = Some d ->
  validate_xy_data_obj data min_rows h =
  (match validate_xy_data d min_rows with
   | Ok _ => Ok data
   | Raise e => Raise e
   end, h).
Proof.
  intros Hd. unfold validate_xy_data_obj.
  rewrite (bindST_ok _ _ h h d) by now apply get_alive.
  unfold bindST, lift, ret.
  destruct (validate_xy_data d min_rows); reflexivity.
Qed.

Lemma estimate_beta_obj_refines (h : heap) (data : ref) (d : ndarray) :
  nth_error h data = Some d ->
  match estimate_beta d with
  | Ok beta =>
      exists r, fst (estimate_beta_obj data h) = Ok r /\
                nth_error (snd (estimate_beta_obj data h)) r = Some (Nd1 beta)
  | Raise e => fst (estimate_beta_obj data h) = Raise e
  end.
Proof.
  intros Hd. unfold estimate_beta_obj, estimate_beta.
  pose proof (validate_xy_data_obj_run h data d 2 Hd) as Hrun.
  destruct (validate_xy_data d 2) as [d'|e] eqn:Hv.
  - apply validate_xy_data_inv in Hv. destruct Hv as [-> _]. cbn [bind].
    rewrite (bindST_ok _ _ _ _ _ Hrun).
    rewrite (bindST_ok _ _ h h d) by now apply get_alive.
    erewrite bindST_ok by reflexivity.
    erewrite bindST_ok by reflexivity.
    erewrite bindST_ok by apply get_new.
    erewrite bindST_ok by reflexivity.
    erewrite bindST_ok by apply get_new.
    cbn [rows_of].
    destruct (linalg_inv _) as [inverse|e] eqn:Hinv.
    + erewrite bindST_ok by reflexivity.
      erewrite bindST_ok by reflexivity.
      erewrite bindST_ok by apply get_new.
      erewrite bindST_ok by reflexivity.
      erewrite bindST_ok by apply get_new.
      cbn [rows_of bind]. unfold new. cbn [fst snd].
      eexists. split; [reflexivity|].
      rewrite nth_error_app2 by lia. now rewrite Nat.sub_diag.
    + erewrite bindST_raise by reflexivity. reflexivity.
  - cbn [bind]. now rewrite (bindST_raise _ _ _ _ _ Hrun).
Qed.

Section ObjectsRefine.

Context {rng_impl : NumpyRandom}.

Lemma bootstrap_samples_obj_refines (h : heap) (data : ref) (d : ndarray)
    (B seed : pyval) (os : Z) :
  nth_error h data = Some d ->
  match bootstrap_samples d B seed os with
  | Ok samples =>
      exists r, fst (bootstrap_samples_obj data B seed os h) = Ok r /\
                nth_error (snd (bootstrap_samples_obj data B seed os h)) r =
                Some samples
  | Raise e => fst (bootstrap_samples_obj data B seed os h) = Raise e
  end.
Proof.
  intros Hd. unfold bootstrap_samples_obj, bootstrap_samples.
  pose proof (validate_xy_data_obj_run h data d 2 Hd) as Hrun.
  destruct (validate_xy_data d 2) as [d'|e] eqn:Hv.
  - apply validate_xy_data_inv in Hv. destruct Hv as [-> _]. cbn [bind].
    rewrite (bindST_ok _ _ _ _ _ Hrun).
    rewrite (bindST_ok _ _ h h d) by now apply get_alive.
    destruct (validate_int "B" B (Some 1%Z) None) as [Bv|e] eqn:HB.
    + erewrite bindST_ok by reflexivity. cbn [bind].
      destruct (validate_rng_seed seed os) as [sr|e] eqn:Hs.
      * erewrite bindST_ok by reflexivity. cbn [bind].
        erewrite bindST_ok by reflexivity.
        destruct (mapM _ _) as [samples|e] eqn:Hm.
        -- erewrite bindST_ok by reflexivity. cbn [bind].
           unfold new. cbn [fst snd].
           eexists. split; [reflexivity|].
           rewrite nth_error_app2 by lia. now rewrite Nat.sub_diag.
        -- erewrite bindST_raise by reflexivity. reflexivity.
      * erewrite bindST_raise by reflexivity. reflexivity.
    + erewrite bindST_raise by reflexivity. reflexivity.
  - cbn [bind]. now rewrite (bindST_raise _ _ _ _ _ Hrun).
Qed.

End ObjectsRefine.

(** * Further properties of the code *)

(** ** The validators *)

(** X1.  [validate_int] returns exactly the Python ints (never a bool, a
    float or a string) that lie within the bounds given, and returns them
    unchanged. *)
Theorem validate_int_returns (name : string) (value : pyval)
    (min_value max_value : option Z) (z : Z) :
  validate_int name value min_value max_value = Ok z <->
  value = PyInt z /\
  (forall lo, min_value = Some lo -> (lo <= z)%Z) /\
  (forall hi, max_value = Some hi -> (z <= hi)%Z).
Proof.
  unfold validate_int. split.
  - destruct value as [|b|v|f|s]; try discriminate.
    destruct min_value as [lo|]; destruct max_value as [hi|]; cbn [bind];
      repeat match goal with
      | |- context [(?a <? ?b)%Z] => destruct (Z.ltb_spec a b); cbn [bind]
      | |- context [(?a >? ?b)%Z] =>
          rewrite (Z.gtb_ltb a b); destruct (Z.ltb_spec b a); cbn [bind]
      end; try discriminate;
      intros Heq; injection Heq as <-;
      (split; [reflexivity|]); split; intros x Hx; inversion Hx; subst; lia.
  - intros [-> [Hlo Hhi]].
    destruct min_value as [lo|]; destruct max_value as [hi|]; cbn [bind];
      repeat match goal with
      | |- context [(?a <? ?b)%Z] => destruct (Z.ltb_spec a b); cbn [bind]
      | |- context [(?a >? ?b)%Z] =>
          rewrite (Z.gtb_ltb a b); destruct (Z.ltb_spec b a); cbn [bind]
      end; try reflexivity; exfalso;
      try (specialize (Hlo _ eq_refl)); try (specialize (Hhi _ eq_refl)); lia.
Qed.

Lemma validate_real_finite_inv (name : string) (value : pyval) (f : float) :
  validate_real name value true = Ok f ->
  exists r, f = Fin r /\
    (value = PyFloat (Fin r) \/ exists z, value = PyInt z /\ r = IZR z).
Proof.
  unfold validate_real.
  destruct value as [|b|z|x|s]; try discriminate.
  - cbn. intros H. injection H as <-. exists (IZR z). split; [reflexivity|].
    right. now exists z.
  - destruct x as [r| | |]; cbn; try discriminate.
    intros H. injection H as <-. exists r. split; [reflexivity | now left].
Qed.

Lemma validate_positive_iff (name : string) (value : pyval) (f : float) :
  validate_positive name value = Ok f <->
  exists r, f = Fin r /\ 0 < r /\
    (value = PyFloat (Fin r) \/ exists z, value = PyInt z /\ r = IZR z).
Proof.
  unfold validate_positive. split.
  - destruct (validate_real name value true) as [g|e] eqn:Hreal; [|discriminate].
    cbn [bind]. apply validate_real_finite_inv in Hreal.
    destruct Hreal as [r [-> Hval]]. cbn [fleb]. unfold Rleb.
    destruct (Rle_dec r 0) as [Hle|Hgt]; [discriminate|].
    intros H. injection H as <-. exists r.
    split; [reflexivity|]. split; [lra | exact Hval].
  - intros [r [-> [Hr [->|[z [-> ->]]]]]].
    + now apply validate_positive_Fin.
    + unfold validate_real, float_of_int.
      cbn [isfinite negb andb bind fleb]. unfold Rleb.
      destruct (Rle_dec (IZR z) 0); [lra | reflexivity].
Qed.


(** X3.  [validate_xy_data] accepts exactly the numeric arrays of shape
    (N, 2) with N >= [min_rows] and no [nan] or infinite entry, and returns
    the array it was given. *)
Theorem validate_xy_data_accepts (d d' : ndarray) (min_rows : nat) :
  validate_xy_data d min_rows = Ok d' <->
  d' = d /\
  exists rows, d = Nd2 2 rows /\ (min_rows <= length rows)%nat /\
               forallb (forallb isfinite) rows = true.
Proof.
  split.
  - intros H. apply validate_xy_data_inv in H.
    destruct H as [-> [[rows [-> Hlen]] Hfin]].
    split; [reflexivity|]. now exists rows.
  - intros [-> [rows [-> [Hlen Hfin]]]].
    unfold validate_xy_data, ndim.
    cbn [shape length nth Nat.eqb negb is_numeric all_finite].
    rewrite Hfin.
    destruct (Nat.ltb_spec (length rows) min_rows); [lia | reflexivity].
Qed.

Lemma validate_xy_data_again (d d' : ndarray) (min_rows min_rows' : nat) :
  validate_xy_data d min_rows = Ok d' -> (min_rows' <= min_rows)%nat ->
  validate_xy_data d' min_rows' = Ok d'.
Proof.
  intros H Hle. apply validate_xy_data_inv in H.
  destruct H as [-> [[rows [-> Hlen]] Hfin]].
  unfold validate_xy_data, ndim.
  cbn [shape length nth Nat.eqb negb is_numeric]. rewrite Hfin.
  destruct (Nat.ltb_spec (length rows) min_rows'); [lia | reflexivity].
Qed.

(** X4.  An array that [validate_xy_data] has returned passes every later
    validation that asks for no more rows: the checks that [bootstrap_beta],
    [bootstrap_samples] and [estimate_beta] repeat on the same data cannot
    fail once the first has passed. *)
Theorem revalidation_succeeds (d d' : ndarray) (min_rows min_rows' : nat) :
  validate_xy_data d min_rows = Ok d' -> (min_rows' <= min_rows)%nat ->
  validate_xy_data d' min_rows' = Ok d'.
Proof. exact (validate_xy_data_again d d' min_rows min_rows'). Qed.

Lemma revalidation_succeeds_witness :
  validate_xy_data (dataset [(0, 1); (1, 3); (2, 5)]) 1 =
  Ok (dataset [(0, 1); (1, 3); (2, 5)]).
Proof.
  apply (revalidation_succeeds (dataset [(0, 1); (1, 3); (2, 5)]) _ 2 1).
  - apply validate_dataset. simpl. lia.
  - lia.
Defined.

Section SeedProperties.

Context {rng_impl : NumpyRandom}.

(** X5.  [validate_rng_seed] succeeds exactly on an omitted seed and on a
    non-negative int, a bool being rejected like every other type; it returns
    the seed given, or the seed it drew, together with the generator that
    this seed determines. *)
Theorem validate_rng_seed_returns (seed : pyval) (os s : Z) (g : Generator) :
  validate_rng_seed seed os = Ok (s, g) <->
  g = seeded s /\
  ((seed = PyNone /\ s = fresh_seed os) \/ (seed = PyInt s /\ (0 <= s)%Z)).
Proof.
  split.
  - destruct seed as [|b|z|f|str].
    + rewrite validate_rng_seed_none. intros H. injection H as <- <-.
      split; [reflexivity | now left].
    + discriminate.
    + destruct (Z.ltb_spec z 0) as [Hneg|Hpos].
      * rewrite validate_rng_seed_negative by assumption. discriminate.
      * rewrite validate_rng_seed_int by assumption.
        intros H. injection H as <- <-. split; [reflexivity | now right].
    + discriminate.
    + discriminate.
  - intros [-> [[-> ->]|[-> Hs]]].
    + apply validate_rng_seed_none.
    + now apply validate_rng_seed_int.
Qed.

Lemma simulate_data_seeded (N : pyval) (beta_0 beta_1 : float)
    (x_sigma epsilon_sigma : pyval) (z os os' : Z) :
  (0 <= z)%Z ->
  simulate_data N beta_0 beta_1 x_sigma epsilon_sigma (PyInt z) os =
  simulate_data N beta_0 beta_1 x_sigma epsilon_sigma (PyInt z) os'.
Proof.
  intros Hz. unfold simulate_data. now rewrite !default_rng_int by assumption.
Qed.

Lemma validate_rng_seed_seeded (z os os' : Z) :
  validate_rng_seed (PyInt z) os = validate_rng_seed (PyInt z) os'.
Proof.
  destruct (Z.ltb_spec z 0).
  - now rewrite !validate_rng_seed_negative by assumption.
  - now rewrite !validate_rng_seed_int by assumption.
Qed.

Lemma bootstrap_samples_seeded (d : ndarray) (B : pyval) (z os os' : Z) :
  bootstrap_samples d B (PyInt z) os = bootstrap_samples d B (PyInt z) os'.
Proof.
  unfold bootstrap_samples. now rewrite (validate_rng_seed_seeded z os os').
Qed.

Lemma bootstrap_beta_seeded (d : ndarray) (B parallel n_jobs : pyval)
    (z os os' : Z) (sched : list nat) :
  bootstrap_beta d B parallel n_jobs (PyInt z) os sched =
  bootstrap_beta d B parallel n_jobs (PyInt z) os' sched.
Proof.
  unfold bootstrap_beta. rewrite (validate_rng_seed_seeded z os os').
  destruct (validate_xy_data d 2) as [d'|e]; [|reflexivity]. cbn [bind].
  destruct (validate_int "B" B (Some 2%Z) None) as [Bv|e]; [|reflexivity].
  cbn [bind].
  destruct (validate_int "n_jobs" n_jobs (Some 1%Z) None) as [nj|e]; [|reflexivity].
  cbn [bind].
  destruct parallel as [|b| | |]; try reflexivity. cbn [bind].
  destruct (validate_rng_seed (PyInt z) os') as [sr|e]; [|reflexivity].
  cbn [bind].
  now rewrite (bootstrap_samples_seeded d' (PyInt Bv) (fst sr) os os').
Qed.

(** X6.  With a non-negative int seed, [simulate_data], [bootstrap_samples]
    and [bootstrap_beta] take nothing from the operating system's entropy:
    the seed alone determines what they return. *)
Theorem seeded_runs_ignore_entropy (z os os' : Z) :
  (0 <= z)%Z ->
  (forall N beta_0 beta_1 x_sigma epsilon_sigma,
     simulate_data N beta_0 beta_1 x_sigma epsilon_sigma (PyInt z) os =
     simulate_data N beta_0 beta_1 x_sigma epsilon_sigma (PyInt z) os') /\
  (forall d B,
     bootstrap_samples d B (PyInt z) os = bootstrap_samples d B (PyInt z) os') /\
  (forall d B parallel n_jobs sched,
     bootstrap_beta d B parallel n_jobs (PyInt z) os sched =
     bootstrap_beta d B parallel n_jobs (PyInt z) os' sched).
Proof.
  intros Hz. split; [|split].
  - intros. now apply simulate_data_seeded.
  - intros. apply bootstrap_samples_seeded.
  - intros. apply bootstrap_beta_seeded.
Qed.

End SeedProperties.

Lemma seeded_runs_ignore_entropy_witness :
  (forall N beta_0 beta_1 x_sigma epsilon_sigma,
     @simulate_data reference_rng N beta_0 beta_1 x_sigma epsilon_sigma (PyInt 17) 0 =
     @simulate_data reference_rng N beta_0 beta_1 x_sigma epsilon_sigma (PyInt 17) 5) /\
  (forall d B,
     @bootstrap_samples reference_rng d B (PyInt 17) 0 =
     @bootstrap_samples reference_rng d B (PyInt 17) 5) /\
  (forall d B parallel n_jobs sched,
     @bootstrap_beta reference_rng d B parallel n_jobs (PyInt 17) 0 sched =
     @bootstrap_beta reference_rng d B parallel n_jobs (PyInt 17) 5 sched).
Proof.
  apply (@seeded_runs_ignore_entropy reference_rng 17 0 5). lia.
Defined.

(** ** The standard deviation, continued *)











Lemma fadd_NaN_r (x : float) : fadd x NaN = NaN.
Proof. destruct x; reflexivity. Qed.

Lemma fold_fadd_NaN (l : list float) : fold_left fadd l NaN = NaN.
Proof. induction l as [|x l IH]; [reflexivity | exact IH]. Qed.

Lemma fold_fadd_has_NaN (l : list float) (acc : float) :
  In NaN l -> fold_left fadd l acc = NaN.
Proof.
  revert acc. induction l as [|x l IH]; intros acc Hin; [contradiction|].
  cbn [fold_left]. destruct Hin as [->|Hin].
  - rewrite fadd_NaN_r. apply fold_fadd_NaN.
  - now apply IH.
Qed.

(** X10.  A [nan] among at least two values makes [sample_std] return
    [nan]: the missing value is passed on, not reported. *)
Theorem sample_std_nan (l : list float) :
  (2 <= length l)%nat -> In NaN l -> sample_std (Nd1 l) = Ok NaN.
Proof.
  intros Hlen Hnan. unfold sample_std.
  cbn [ndim shape length Nat.eqb negb].
  destruct (Nat.ltb_spec (length l) 2); [lia|].
  unfold fsum at 2. rewrite (fold_fadd_has_NaN l (Fin 0) Hnan).
  cbn [fdiv]. unfold fsub. cbn [fneg].
  rewrite (map_ext _ (fun _ => NaN)) by (intros v; now rewrite fadd_NaN_r).
  unfold fsum. rewrite fold_fadd_has_NaN; [reflexivity|].
  destruct l as [|x l']; [contradiction | now left].
Qed.

Lemma sample_std_nan_witness : sample_std (Nd1 [Fin 1; NaN; Fin 3]) = Ok NaN.
Proof.
  apply (sample_std_nan [Fin 1; NaN; Fin 3]).
  - simpl. lia.
  - right. now left.
Defined.



(** ** The estimator, continued *)














(** ** The bootstrap, continued *)

Section BootstrapProperties.

Context {rng_impl : NumpyRandom}.



(** X15.  Every resample that [bootstrap_samples] draws from a valid
    Dataset is a valid Dataset itself, so the validation that opens
    [estimate_beta] never rejects a resample: a refit inside
    [bootstrap_beta] can only fail with [LinAlgError]. *)
Theorem resamples_are_valid (d : ndarray) (B seed os : Z) (samples : ndarray) :
  valid_dataset d -> (1 <= B)%Z -> (0 <= seed)%Z ->
  bootstrap_samples d (PyInt B) (PyInt seed) os = Ok samples ->
  forall sample, In sample (iter_first_axis samples) ->
    valid_dataset sample /\
    forall e, estimate_beta sample = Raise e -> e = LinAlgError.
Proof.
  intros Hd HB Hseed Hs sample Hin.
  apply valid_dataset_points in Hd. destruct Hd as [pts [-> Hlen]].
  rewrite bootstrap_samples_dataset in Hs by assumption.
  injection Hs as <-. cbn [iter_first_axis] in Hin. rewrite map_map in Hin.
  change (In sample (resamples pts seed B)) in Hin.
  destruct (resample_fit pts seed B sample Hlen Hin) as [pts' [-> [Hl Hfit]]].
  split.
  - apply valid_dataset_of_points. lia.
  - intros e He. rewrite Hfit in He.
    destruct (Req_EM_T (gram_det pts') 0); congruence.
Qed.



(** X18.  [bootstrap_beta] checks its arguments in the order data, B,
    n_jobs, parallel, seed, and checks n_jobs even when parallel is false:
    with valid data and B, n_jobs < 1 raises [ValueError] whatever parallel
    and seed are, and with n_jobs valid a parallel that is not a bool (an
    int 1 included) raises [TypeError] whatever the seed is. *)
Theorem bootstrap_beta_argument_checks (d : ndarray) (B n_jobs bad : Z)
    (parallel seed : pyval) (os : Z) (sched : list nat) :
  valid_dataset d -> (2 <= B)%Z -> (1 <= n_jobs)%Z -> (bad < 1)%Z ->
  (forall b, parallel <> PyBool b) ->
  bootstrap_beta d (PyInt B) (PyBool false) (PyInt bad) seed os sched =
    Raise (ValueError (must_be_ge "n_jobs" 1 bad)) /\
  bootstrap_beta d (PyInt B) parallel (PyInt bad) seed os sched =
    Raise (ValueError (must_be_ge "n_jobs" 1 bad)) /\
  bootstrap_beta d (PyInt B) parallel (PyInt n_jobs) seed os sched =
    Raise (TypeError (parallel_not_bool parallel)).
Proof.
  intros [_ Hd] HB Hj Hbad Hpar. unfold bootstrap_beta. rewrite Hd.
  cbn [bind]. rewrite validate_int_ok by assumption. cbn [bind].
  rewrite validate_int_low by assumption.
  rewrite validate_int_ok by assumption. cbn [bind].
  split; [reflexivity|]. split; [reflexivity|].
  destruct parallel as [|b|z|f|s]; try reflexivity.
  exfalso. now apply (Hpar b).
Qed.

End BootstrapProperties.

Lemma resamples_are_valid_witness :
  exists samples,
    @bootstrap_samples reference_rng (dataset [(0, 0); (1, 1); (3, 2)])
      (PyInt 2) (PyInt 0) 0 = Ok samples /\
    forall sample, In sample (iter_first_axis samples) ->
      valid_dataset sample /\
      forall e, estimate_beta sample = Raise e -> e = LinAlgError.
Proof.
  eexists. split.
  - apply (@bootstrap_samples_dataset reference_rng); simpl; lia.
  - apply (@resamples_are_valid reference_rng
             (dataset [(0, 0); (1, 1); (3, 2)]) 2 0 0).
    + apply valid_dataset_of_points. simpl. lia.
    + lia.
    + lia.
    + apply (@bootstrap_samples_dataset reference_rng); simpl; lia.
Defined.



Lemma bootstrap_beta_argument_checks_witness :
  @bootstrap_beta reference_rng (dataset [(0, 0); (1, 1)]) (PyInt 2)
    (PyBool false) (PyInt 0) PyNone 0 [] =
    Raise (ValueError (must_be_ge "n_jobs" 1 0)) /\
  @bootstrap_beta reference_rng (dataset [(0, 0); (1, 1)]) (PyInt 2)
    (PyInt 1) (PyInt 0) PyNone 0 [] =
    Raise (ValueError (must_be_ge "n_jobs" 1 0)) /\
  @bootstrap_beta reference_rng (dataset [(0, 0); (1, 1)]) (PyInt 2)
    (PyInt 1) (PyInt 1) PyNone 0 [] =
    Raise (TypeError (parallel_not_bool (PyInt 1))).
Proof.
  apply (@bootstrap_beta_argument_checks reference_rng
           (dataset [(0, 0); (1, 1)]) 2 1 0 (PyInt 1) PyNone 0 []).
  - apply valid_dataset_of_points. simpl. lia.
  - lia.
  - lia.
  - lia.
  - intros b. discriminate.
Defined.

(** ** The simulator, continued *)


Section SimulatorProperties.

Context {rng_impl : NumpyRandom}.




End SimulatorProperties.


(** ** The command line *)

Lemma validate_positive_float_fails (name : string) (f : float) :
  ~ (exists r, f = Fin r /\ 0 < r) ->
  exists m, validate_positive name (PyFloat f) = Raise (ValueError m).
Proof.
  intros Hno. unfold validate_positive, validate_real.
  destruct f as [r| | |]; cbn [isfinite negb andb bind fleb];
    try (eexists; reflexivity).
  unfold Rleb. destruct (Rle_dec r 0) as [Hle|Hgt]; [eexists; reflexivity|].
  exfalso. apply Hno. exists r. split; [reflexivity | lra].
Qed.

Section CliProperties.

Context {rng_impl : NumpyRandom}.

Lemma validate_seed_arg (seed : option Z) (os : Z) :
  (forall z, seed = Some z -> (0 <= z)%Z) ->
  validate_rng_seed (pyval_of_seed seed) os =
  Ok (match seed with Some z => z | None => fresh_seed os end,
      seeded (match seed with Some z => z | None => fresh_seed os end)).
Proof.
  intros H. destruct seed as [z|]; cbn [pyval_of_seed].
  - apply validate_rng_seed_int. now apply H.
  - apply validate_rng_seed_none.
Qed.

Lemma seed_used_nonneg (args : Args) (os : Z) :
  (forall z, arg_seed args = Some z -> (0 <= z)%Z) -> (0 <= seed_used args os)%Z.
Proof.
  intros H. unfold seed_used. destruct (arg_seed args) as [z|].
  - now apply H.
  - apply fresh_seed_range.
Qed.

Lemma validate_args_valid (args : Args) (os : Z) :
  valid_args args ->
  validate_args args os =
  Ok (arg_N args, arg_B args, arg_n_jobs args, arg_x_sigma args,
      arg_eps_sigma args, seed_used args os).
Proof.
  intros [HN [HB [Hj [[rx [Hx Hrx]] [[re [He Hre]] Hseed]]]]].
  unfold validate_args. rewrite !validate_int_ok by assumption. cbn [bind].
  rewrite Hx, He. rewrite !validate_positive_Fin by assumption. cbn [bind].
  rewrite validate_seed_arg by exact Hseed. reflexivity.
Qed.

Lemma validate_args_invalid (args : Args) (os : Z) :
  ~ valid_args args -> exists m, validate_args args os = Raise (ValueError m).
Proof.
  intros Hno. unfold validate_args.
  destruct (Z.ltb_spec (arg_N args) 2) as [HN|HN].
  { rewrite validate_int_low by assumption. eexists. reflexivity. }
  rewrite validate_int_ok by assumption. cbn [bind].
  destruct (Z.ltb_spec (arg_B args) 2) as [HB|HB].
  { rewrite validate_int_low by assumption. eexists. reflexivity. }
  rewrite validate_int_ok by assumption. cbn [bind].
  destruct (Z.ltb_spec (arg_n_jobs args) 1) as [Hj|Hj].
  { rewrite validate_int_low by assumption. eexists. reflexivity. }
  rewrite validate_int_ok by assumption. cbn [bind].
  destruct (validate_positive "x_sigma" (PyFloat (arg_x_sigma args)))
    as [sx|e] eqn:Hx.
  2:{ destruct (arg_x_sigma args) as [r| | |] eqn:Hf.
      - destruct (Rle_dec r 0) as [Hle|Hgt].
        + destruct (validate_positive_float_fails "x_sigma" (Fin r)) as [m Hm].
          { intros [r' [Hr' Hpos]]. injection Hr' as <-. lra. }
          rewrite Hm in Hx. injection Hx as <-. eexists. reflexivity.
        + rewrite validate_positive_Fin in Hx by lra. discriminate.
      - cbn in Hx. injection Hx as <-. eexists. reflexivity.
      - cbn in Hx. injection Hx as <-. eexists. reflexivity.
      - cbn in Hx. injection Hx as <-. eexists. reflexivity. }
  cbn [bind].
  destruct (validate_positive "eps_sigma" (PyFloat (arg_eps_sigma args)))
    as [se|e] eqn:He.
  2:{ destruct (arg_eps_sigma args) as [r| | |] eqn:Hf.
      - destruct (Rle_dec r 0) as [Hle|Hgt].
        + destruct (validate_positive_float_fails "eps_sigma" (Fin r)) as [m Hm].
          { intros [r' [Hr' Hpos]]. injection Hr' as <-. lra. }
          rewrite Hm in He. injection He as <-. eexists. reflexivity.
        + rewrite validate_positive_Fin in He by lra. discriminate.
      - cbn in He. injection He as <-. eexists. reflexivity.
      - cbn in He. injection He as <-. eexists. reflexivity.
      - cbn in He. injection He as <-. eexists. reflexivity. }
  cbn [bind].
  apply validate_positive_iff in Hx. destruct Hx as [rx [_ [Hrx Hvx]]].
  apply validate_positive_iff in He. destruct He as [re [_ [Hre Hve]]].
  destruct (arg_seed args) as [z|] eqn:Hs; cbn [pyval_of_seed].
  - destruct (Z.ltb_spec z 0) as [Hneg|Hpos].
    + rewrite validate_rng_seed_negative by assumption. eexists. reflexivity.
    + exfalso. apply Hno. repeat split; try assumption.
      * exists rx. destruct Hvx as [Hv|[z' [Hv _]]]; [|discriminate].
        injection Hv as ->. now split.
      * exists re. destruct Hve as [Hv|[z' [Hv _]]]; [|discriminate].
        injection Hv as ->. now split.
      * intros z' Hz'. rewrite Hs in Hz'. injection Hz' as <-. exact Hpos.
  - exfalso. apply Hno. repeat split; try assumption.
    + exists rx. destruct Hvx as [Hv|[z' [Hv _]]]; [|discriminate].
      injection Hv as ->. now split.
    + exists re. destruct Hve as [Hv|[z' [Hv _]]]; [|discriminate].
      injection Hv as ->. now split.
    + intros z' Hz'. rewrite Hs in Hz'. discriminate.
Qed.

Lemma main_valid_not_2 (args : Args) (os : Z) (sched : list nat) (now : string)
    (outs : list output) :
  valid_args args -> main args os sched now <> Ok (2%Z, outs).
Proof.
  intros Hv. unfold main. rewrite validate_args_valid by exact Hv.
  destruct (simulate_data _ _ _ _ _ _ _) as [data|e]; [|discriminate].
  cbn [bind]. destruct (estimate_beta data) as [beta|e]; [|discriminate].
  cbn [bind]. destruct (bootstrap_beta _ _ _ _ _ _ _) as [se|e]; [|discriminate].
  cbn [bind]. discriminate.
Qed.

(** X20.  [main] returns the exit code 2, having written nothing, exactly
    when an argument is out of range (N < 2, B < 2, n_jobs < 1, a sigma that
    is not a finite positive number, a negative seed); it does so without
    raising, and before any data is simulated. *)
Theorem main_exit_code_2 (args : Args) (os : Z) (sched : list nat) (now : string) :
  main args os sched now = Ok (2%Z, []) <-> ~ valid_args args.
Proof.
  split.
  - intros H Hv. now apply (main_valid_not_2 args os sched now [] Hv).
  - intros Hno. unfold main.
    destruct (validate_args_invalid args os Hno) as [m ->]. reflexivity.
Qed.

End CliProperties.

Section CliRuns.

Context {rng_impl : NumpyRandom}.

(** [main] past its validation. *)
Lemma main_valid (args : Args) (os : Z) (sched : list nat) (now : string) :
  valid_args args ->
  main args os sched now =
  (data <- simulate_data (PyInt (arg_N args)) (arg_beta0 args) (arg_beta1 args)
             (PyFloat (arg_x_sigma args)) (PyFloat (arg_eps_sigma args))
             (PyInt (seed_used args os)) os ;;
   beta_hat <- estimate_beta data ;;
   se_boot <- bootstrap_beta data (PyInt (arg_B args)) (PyBool (arg_parallel args))
                (PyInt (arg_n_jobs args)) (PyInt (seed_used args os)) os sched ;;
   Ok (0%Z, outputs_of args now data (result_of args os beta_hat se_boot))).
Proof.
  intros Hv. unfold main. rewrite validate_args_valid by exact Hv. reflexivity.
Qed.

Lemma main_success (args : Args) (os : Z) (sched : list nat) (now : string)
    (outs : list output) :
  main args os sched now = Ok (0%Z, outs) ->
  valid_args args /\
  exists data beta_hat se_boot,
    simulate_data (PyInt (arg_N args)) (arg_beta0 args) (arg_beta1 args)
      (PyFloat (arg_x_sigma args)) (PyFloat (arg_eps_sigma args))
      (PyInt (seed_used args os)) os = Ok data /\
    estimate_beta data = Ok beta_hat /\
    bootstrap_beta data (PyInt (arg_B args)) (PyBool (arg_parallel args))
      (PyInt (arg_n_jobs args)) (PyInt (seed_used args os)) os sched = Ok se_boot /\
    outs = outputs_of args now data (result_of args os beta_hat se_boot).
Proof.
  intros Hrun.
  assert (Hv : valid_args args).
  { destruct (validate_args args os) as [t|e] eqn:Hva.
    - unfold validate_args in Hva.
      destruct (Z.ltb_spec (arg_N args) 2) as [HN|HN];
        [rewrite validate_int_low in Hva by assumption; discriminate|].
      rewrite validate_int_ok in Hva by assumption. cbn [bind] in Hva.
      destruct (Z.ltb_spec (arg_B args) 2) as [HB|HB];
        [rewrite validate_int_low in Hva by assumption; discriminate|].
      rewrite validate_int_ok in Hva by assumption. cbn [bind] in Hva.
      destruct (Z.ltb_spec (arg_n_jobs args) 1) as [Hj|Hj];
        [rewrite validate_int_low in Hva by assumption; discriminate|].
      rewrite validate_int_ok in Hva by assumption. cbn [bind] in Hva.
      destruct (validate_positive "x_sigma" (PyFloat (arg_x_sigma args)))
        as [sx|e] eqn:Hx; [|discriminate]. cbn [bind] in Hva.
      destruct (validate_positive "eps_sigma" (PyFloat (arg_eps_sigma args)))
        as [se|e] eqn:He; [|discriminate]. cbn [bind] in Hva.
      destruct (validate_rng_seed (pyval_of_seed (arg_seed args)) os)
        as [[s g]|e] eqn:Hs; [|discriminate].
      apply validate_positive_iff in Hx. destruct Hx as [rx [_ [Hrx Hvx]]].
      apply validate_positive_iff in He. destruct He as [re [_ [Hre Hve]]].
      repeat split; try assumption.
      + exists rx. destruct Hvx as [Hf|[z [Hf _]]]; [|discriminate].
        injection Hf as ->. now split.
      + exists re. destruct Hve as [Hf|[z [Hf _]]]; [|discriminate].
        injection Hf as ->. now split.
      + intros z Hz. rewrite Hz in Hs. cbn [pyval_of_seed] in Hs.
        destruct (Z.ltb_spec z 0) as [Hneg|Hpos]; [|exact Hpos].
        rewrite validate_rng_seed_negative in Hs by assumption. discriminate.
    - unfold main in Hrun. rewrite Hva in Hrun.
      destruct e; discriminate. }
  split; [exact Hv|].
  rewrite main_valid in Hrun by exact Hv.
  destruct (simulate_data _ _ _ _ _ _ _) as [data|e] eqn:Hsim; [|discriminate].
  cbn [bind] in Hrun.
  destruct (estimate_beta data) as [beta|e] eqn:Hfit; [|discriminate].
  cbn [bind] in Hrun.
  destruct (bootstrap_beta _ _ _ _ _ _ _) as [se|e] eqn:Hboot; [|discriminate].
  cbn [bind] in Hrun. injection Hrun as <-.
  exists data, beta, se. repeat split; assumption.
Qed.

End CliRuns.

Section CliTheorems.

Context {rng_impl : NumpyRandom}.

Lemma validate_args_seedless (args : Args) (os os' : Z) :
  arg_seed args = None ->
  validate_args (with_seed args (fresh_seed os)) os' = validate_args args os.
Proof.
  intros Hs. unfold validate_args, with_seed. cbn [arg_N arg_B arg_n_jobs
    arg_x_sigma arg_eps_sigma arg_seed]. rewrite Hs. cbn [pyval_of_seed].
  rewrite validate_rng_seed_none.
  pose proof (fresh_seed_range os).
  now rewrite validate_rng_seed_int by lia.
Qed.

Lemma main_seedless (args : Args) (os os' : Z) (sched : list nat) (now : string) :
  arg_seed args = None ->
  main args os sched now = main (with_seed args (fresh_seed os)) os' sched now.
Proof.
  intros Hs. unfold main. rewrite (validate_args_seedless args os os' Hs).
  destruct (validate_args args os) as [[[[[[N B] nj] sx] se] seed]|e] eqn:Hva;
    [|reflexivity].
  assert (Hseed : (0 <= seed)%Z).
  { unfold validate_args in Hva.
    destruct (validate_int "N" _ _ _); [|discriminate]. cbn [bind] in Hva.
    destruct (validate_int "B" _ _ _); [|discriminate]. cbn [bind] in Hva.
    destruct (validate_int "n_jobs" _ _ _); [|discriminate]. cbn [bind] in Hva.
    destruct (validate_positive "x_sigma" _); [|discriminate]. cbn [bind] in Hva.
    destruct (validate_positive "eps_sigma" _); [|discriminate]. cbn [bind] in Hva.
    rewrite Hs in Hva. cbn [pyval_of_seed] in Hva.
    rewrite validate_rng_seed_none in Hva. cbn [bind fst] in Hva.
    injection Hva as _ _ _ _ _ <-. apply fresh_seed_range. }
  cbn [with_seed arg_beta0 arg_beta1 arg_parallel arg_out arg_save_data arg_log].
  rewrite (simulate_data_seeded _ _ _ _ _ seed os os' Hseed).
  destruct (simulate_data _ _ _ _ _ _ _) as [data|e]; [|reflexivity].
  cbn [bind]. destruct (estimate_beta data) as [beta|e]; [|reflexivity].
  cbn [bind].
  now rewrite (bootstrap_beta_seeded data _ _ _ seed os os').
Qed.

(** X21.  A run of [main] without [--seed] is reproduced by a run with
    [--seed] set to the seed it drew (the one it reports): the two runs
    return the same exit code and write the same outputs, whatever entropy
    the second run meets. *)
Theorem seedless_run_is_reproducible (args : Args) (os os' : Z)
    (sched : list nat) (now : string) :
  arg_seed args = None ->
  main args os sched now = main (with_seed args (fresh_seed os)) os' sched now.
Proof. exact (main_seedless args os os' sched now). Qed.

Lemma simulate_data_non_finite_rejected (N os z : Z) (beta_0 beta_1 : float) (rx re : R) :
  (2 <= N)%Z -> 0 < rx -> 0 < re -> (0 <= z)%Z ->
  isfinite beta_0 = false \/ isfinite beta_1 = false ->
  exists data,
    simulate_data (PyInt N) beta_0 beta_1 (PyFloat (Fin rx)) (PyFloat (Fin re))
                  (PyInt z) os = Ok data /\
    estimate_beta data = Raise (ValueError data_not_finite).
Proof.
  intros HN Hrx Hre Hz Hnf. unfold simulate_data.
  rewrite validate_int_ok by assumption. cbn [bind].
  rewrite !validate_positive_Fin by assumption. cbn [bind].
  rewrite default_rng_int by assumption. cbn [bind].
  pose proof (normal_length (seeded z) (Fin 0) (Fin rx) (Z.to_nat N)) as Hlx.
  destruct (normal (seeded z) (Fin 0) (Fin rx) (Z.to_nat N)) as [xs g1].
  cbn [fst] in Hlx.
  pose proof (normal_length g1 (Fin 0) (Fin re) (Z.to_nat N)) as Hle.
  destruct (normal g1 (Fin 0) (Fin re) (Z.to_nat N)) as [epsilons g2].
  cbn [fst] in Hle.
  set (ys := map (fun p => fadd (fadd beta_0 (fmul beta_1 (fst p))) (snd p))
                 (combine xs epsilons)).
  assert (Hly : length ys = length xs).
  { unfold ys. rewrite length_map, length_combine. lia. }
  assert (Hrows : length (column_stack xs ys) = Z.to_nat N).
  { rewrite column_stack_length by now symmetry. exact Hlx. }
  eexists. split; [reflexivity|].
  assert (Hall : forallb (forallb isfinite) (column_stack xs ys) = false).
  { destruct (column_stack xs ys) as [|row rows] eqn:Hcs.
    - simpl in Hrows. lia.
    - assert (Hin : In row (column_stack xs ys)) by (rewrite Hcs; now left).
      apply column_stack_rows in Hin. destruct Hin as [x [y [-> [_ Hy]]]].
      unfold ys in Hy. apply in_map_iff in Hy. destruct Hy as [p [<- _]].
      cbn [forallb]. rewrite (simulated_y_nonfinite _ _ _ _ Hnf).
      now rewrite andb_false_r. }
  unfold estimate_beta, validate_xy_data, ndim.
  cbn [shape length nth Nat.eqb negb is_numeric all_finite].
  rewrite Hrows, Hall.
  destruct (Nat.ltb_spec (Z.to_nat N) 2); [lia | reflexivity].
Qed.

(** X22.  With arguments that pass its validation but an intercept or a
    slope that is [nan] or infinite (the parser accepts both), [main] does
    not return an exit code: the [ValueError] that [estimate_beta] raises on
    the simulated data leaves [main] uncaught, and nothing is written. *)
Theorem main_non_finite_coefficient_raises (args : Args) (os : Z)
    (sched : list nat) (now : string) :
  valid_args args ->
  isfinite (arg_beta0 args) = false \/ isfinite (arg_beta1 args) = false ->
  main args os sched now = Raise (ValueError data_not_finite).
Proof.
  intros Hv Hnf. rewrite main_valid by exact Hv.
  destruct Hv as [HN [HB [Hj [[rx [Hx Hrx]] [[re [He Hre]] Hseed]]]]].
  rewrite Hx, He.
  destruct (simulate_data_non_finite_rejected (arg_N args) os (seed_used args os)
              (arg_beta0 args) (arg_beta1 args) rx re HN Hrx Hre
              (seed_used_nonneg args os Hseed) Hnf) as [data [-> Hfit]].
  cbn [bind]. now rewrite Hfit.
Qed.

End CliTheorems.

Lemma results_in_outputs_of (args : Args) (now : string) (data : ndarray)
    (r : RunResult) :
  results_in (outputs_of args now data r) =
  (if given (arg_out args) then [r] else []) ++
  (if arg_log args then [r] else []) ++
  (if negb (given (arg_out args)) && negb (arg_log args) then [r] else []).
Proof.
  unfold outputs_of, results_in.
  destruct (given (arg_save_data args)), (arg_log args), (given (arg_out args));
    reflexivity.
Qed.

Lemma printed_in_outputs_of (args : Args) (now : string) (data : ndarray)
    (r : RunResult) :
  printed_in (outputs_of args now data r) =
  if negb (given (arg_out args)) && negb (arg_log args) then [r] else [].
Proof.
  unfold outputs_of, printed_in.
  destruct (given (arg_save_data args)), (arg_log args), (given (arg_out args));
    reflexivity.
Qed.

Lemma data_in_outputs_of (args : Args) (now : string) (data : ndarray)
    (r : RunResult) :
  data_in (outputs_of args now data r) =
  (if given (arg_save_data args) then [data] else []) ++
  (if arg_log args then [data] else []).
Proof.
  unfold outputs_of, data_in.
  destruct (given (arg_save_data args)), (arg_log args), (given (arg_out args));
    reflexivity.
Qed.

Section CliOutcomes.

Context {rng_impl : NumpyRandom}.



(** X24.  When [main] returns 0 it has emitted one and the same result at
    least once: printed exactly when neither [--out] (an empty path counts
    as none) nor [--log] is given, written to a file otherwise.  The result
    carries N and B as given and the non-negative seed the run worked with,
    and the data is saved exactly when [--save-data] or [--log] is given. *)
Theorem main_outputs (args : Args) (os : Z) (sched : list nat) (now : string)
    (outs : list output) :
  main args os sched now = Ok (0%Z, outs) ->
  exists r,
    results_in outs <> [] /\
    (forall r', In r' (results_in outs) -> r' = r) /\
    printed_in outs =
      (if negb (given (arg_out args)) && negb (arg_log args) then [r] else []) /\
    in_N r = arg_N args /\ in_B r = arg_B args /\
    in_seed r = seed_used args os /\ (0 <= in_seed r)%Z /\
    (data_in outs = [] <->
     given (arg_save_data args) = false /\ arg_log args = false).
Proof.
  intros Hrun. apply main_success in Hrun.
  destruct Hrun as [Hv [data [beta [se [_ [_ [_ ->]]]]]]].
  exists (result_of args os beta se).
  rewrite results_in_outputs_of, printed_in_outputs_of, data_in_outputs_of.
  split; [destruct (given (arg_out args)), (arg_log args); discriminate|].
  split.
  { intros r' Hr'.
    destruct (given (arg_out args)), (arg_log args); simpl in Hr';
      repeat destruct Hr' as [Hr'|Hr']; try contradiction; now symmetry. }
  split; [reflexivity|]. split; [reflexivity|]. split; [reflexivity|].
  split; [reflexivity|]. split.
  { cbn [result_of in_seed]. apply seed_used_nonneg.
    now destruct Hv as [_ [_ [_ [_ [_ Hs]]]]]. }
  destruct (given (arg_save_data args)), (arg_log args); split;
    try discriminate; try (intros [? ?]; discriminate); auto.
Qed.

End CliOutcomes.

(** ** Runs of the command line with the reference generator *)

Lemma small_args_valid : valid_args small_args.
Proof.
  unfold valid_args, small_args. cbn.
  repeat split; try lia.
  - exists 1. split; [reflexivity | lra].
  - exists 1. split; [reflexivity | lra].
  - intros z Hz. injection Hz as <-. lia.
Qed.

Lemma seedless_args_valid : valid_args seedless_args.
Proof.
  unfold valid_args, seedless_args. cbn.
  repeat split; try lia.
  - exists 1. split; [reflexivity | lra].
  - exists 1. split; [reflexivity | lra].
  - intros z Hz. discriminate.
Qed.

Lemma nan_slope_args_valid : valid_args nan_slope_args.
Proof.
  unfold valid_args, nan_slope_args. cbn.
  repeat split; try lia.
  - exists 1. split; [reflexivity | lra].
  - exists 1. split; [reflexivity | lra].
  - intros z Hz. injection Hz as <-. lia.
Qed.

Lemma two_points_on_a_line_run (a b : R) (p q : R * R) (os : Z) :
  snd p = a + b * fst p -> snd q = a + b * fst q -> fst p <> fst q ->
  estimate_beta (dataset [p; q]) = Ok [Fin a; Fin b] /\
  @bootstrap_beta reference_rng (dataset [p; q])
    (PyInt 2) (PyBool false) (PyInt 1) (PyInt 0) os [] = Ok (Fin 0).
Proof.
  intros Hp Hq Hne.
  assert (Hfit : estimate_beta (dataset [p; q]) = Ok [Fin a; Fin b]).
  { apply (estimate_beta_line a b).
    - simpl. lia.
    - intros r Hr. simpl in Hr. destruct Hr as [<-|[<-|[]]]; assumption.
    - intros Hall. apply Hne. apply Hall; simpl; auto. }
  split; [exact Hfit|].
  rewrite bootstrap_beta_dataset by (simpl; lia). cbn [negb].
  unfold resamples. change (length [p; q]) with 2%nat.
  rewrite reference_drawn_two. cbn [map mapM].
  change (pick [p; q] [0; 1]%Z) with [p; q].
  rewrite Hfit. cbn [bind column map nth].
  change [Fin b; Fin b] with (map Fin [b; b]).
  rewrite (sample_std_Fin [b; b]) by (simpl; lia).
  f_equal. f_equal. apply (bessel_sd_constant _ b); [discriminate|].
  repeat constructor.
Qed.

Lemma small_run :
  exists data,
    @main reference_rng small_args 0 [] "t" =
    Ok (0%Z, [PrintResult (@result_of reference_rng small_args 0
                             [Fin 2; Fin 2] (Fin 0))]) /\
    @simulate_data reference_rng (PyInt 2) (Fin 0) (Fin 1)
      (PyFloat (Fin 1)) (PyFloat (Fin 1)) (PyInt 0) 0 = Ok data.
Proof.
  assert (Hsim :
    @simulate_data reference_rng (PyInt 2) (Fin 0) (Fin 1)
      (PyFloat (Fin 1)) (PyFloat (Fin 1)) (PyInt 0) 0 =
    Ok (dataset [(0 + 1 * 0, 0 + 1 * (0 + 1 * 0) + (0 + 1 * 2));
                 (0 + 1 * 1, 0 + 1 * (0 + 1 * 1) + (0 + 1 * 3))])).
  { unfold simulate_data.
    rewrite validate_int_ok by lia. cbn [bind].
    rewrite !validate_positive_Fin by lra. cbn [bind].
    reflexivity. }
  eexists. split; [|exact Hsim].
  rewrite (@main_valid reference_rng) by exact small_args_valid.
  change (@seed_used reference_rng small_args 0) with 0%Z.
  cbn [small_args arg_N arg_beta0 arg_beta1 arg_x_sigma arg_eps_sigma arg_B
       arg_parallel arg_n_jobs].
  rewrite Hsim. cbn [bind].
  destruct (two_points_on_a_line_run 2 2
              (0 + 1 * 0, 0 + 1 * (0 + 1 * 0) + (0 + 1 * 2))
              (0 + 1 * 1, 0 + 1 * (0 + 1 * 1) + (0 + 1 * 3)) 0)
    as [Hfit Hboot]; cbn [fst snd]; try lra.
  rewrite Hfit. cbn [bind]. rewrite Hboot. cbn [bind]. reflexivity.
Qed.

Lemma seedless_run_is_reproducible_witness :
  @main reference_rng seedless_args 0 [] "t" =
  @main reference_rng (with_seed seedless_args (@fresh_seed reference_rng 0)) 5 [] "t".
Proof.
  apply (@seedless_run_is_reproducible reference_rng seedless_args 0 5 [] "t").
  reflexivity.
Defined.

Lemma main_non_finite_coefficient_raises_witness :
  @main reference_rng nan_slope_args 0 [] "t" = Raise (ValueError data_not_finite).
Proof.
  apply (@main_non_finite_coefficient_raises reference_rng nan_slope_args 0 [] "t").
  - exact nan_slope_args_valid.
  - right. reflexivity.
Defined.


Lemma main_outputs_witness :
  exists r,
    results_in [PrintResult (@result_of reference_rng small_args 0
                               [Fin 2; Fin 2] (Fin 0))] <> [] /\
    (forall r', In r' (results_in [PrintResult (@result_of reference_rng small_args 0
                                                  [Fin 2; Fin 2] (Fin 0))]) -> r' = r) /\
    printed_in [PrintResult (@result_of reference_rng small_args 0
                               [Fin 2; Fin 2] (Fin 0))] =
      (if negb (given (arg_out small_args)) && negb (arg_log small_args)
       then [r] else []) /\
    in_N r = arg_N small_args /\ in_B r = arg_B small_args /\
    in_seed r = @seed_used reference_rng small_args 0 /\ (0 <= in_seed r)%Z /\
    (data_in [PrintResult (@result_of reference_rng small_args 0
                             [Fin 2; Fin 2] (Fin 0))] = [] <->
     given (arg_save_data small_args) = false /\ arg_log small_args = false).
Proof.
  apply (@main_outputs reference_rng small_args 0 [] "t").
  destruct small_run as [data [Hrun _]]. exact Hrun.
Defined.
